(** * File Renamer Pro v9: the rename pass of [file-org-v9.py]

    A shallow embedding of the planning and execution core of the program:
    [generate_new_name], the row loop of [rename_files_from_excel] together
    with its log, and the row loop of [preview_changes].

    Conventions of the embedding.
    - A Python [str] is a [string]; one [ascii] stands for one code point
      below 256.  Code points above 255 are outside the model.
    - A spreadsheet row ([pandas] row read with [dtype=str] and
      [fillna("")]) is a [gmap string string]; [row.get(k, '')] is
      [row_get].
    - [files_map] (a Python [dict]) is a [gmap string string] from base
      name to full path.
    - The operating system ([os], [os.path], [shutil], [open]) is an
      interface, the class [OS]; a call that raises returns [None] or
      [inl]. *)

From Stdlib Require Import ZArith Ascii.
From stdpp Require Import gmap strings list sorting.

Local Open Scope Z_scope.

(** ** Python strings *)

Module PyStr.

(** [str.isspace] on the code points below 256. *)
Definition isspace (c : ascii) : bool :=
  let n := N_of_ascii c in
  ((9 <=? n) && (n <=? 13) || (28 <=? n) && (n <=? 32)
   || (n =? 133) || (n =? 160))%N.

Fixpoint lstrip (s : string) : string :=
  match s with
  | EmptyString => EmptyString
  | String c r => if isspace c then lstrip r else s
  end.

Definition rstrip (s : string) : string :=
  String.rev (lstrip (String.rev s)).

(** [s.strip()] *)
Definition strip (s : string) : string := rstrip (lstrip s).

(** Truth value of a string in a condition: [if s:]. *)
Definition truthy (s : string) : bool :=
  match s with EmptyString => false | String _ _ => true end.

(** [s.endswith(e)] *)
Definition endswith (s e : string) : bool :=
  bool_decide (suffix (String.list_ascii_of_string e)
                      (String.list_ascii_of_string s)).

Fixpoint rfind_from (c : ascii) (s : string) (i acc : Z) : Z :=
  match s with
  | EmptyString => acc
  | String a r => rfind_from c r (i + 1) (if Ascii.eqb a c then i else acc)
  end.

(** [s.rfind(c)]: the highest index of [c] in [s], or [-1]. *)
Definition rfind (c : ascii) (s : string) : Z := rfind_from c s 0 (-1).

(** [s[:i]] and [s[i:]] for [0 <= i]. *)
Definition slice_to (s : string) (i : Z) : string :=
  String.substring 0 (Z.to_nat i) s.
Definition slice_from (s : string) (i : Z) : string :=
  String.substring (Z.to_nat i) (String.length s - Z.to_nat i) s.

End PyStr.

(** ** [os.path]: the string functions

    The POSIX flavour ([posixpath]): [sep = "/"], no [altsep],
    [extsep = "."]. *)

Module OsPath.

Fixpoint rstrip_sep (s : string) : string :=
  match s with
  | EmptyString => EmptyString
  | String c r =>
      match rstrip_sep r with
      | EmptyString => if Ascii.eqb c "/" then EmptyString else String c EmptyString
      | r' => String c r'
      end
  end.

(** [os.path.basename] *)
Definition basename (p : string) : string :=
  PyStr.slice_from p (PyStr.rfind "/" p + 1).

(** [os.path.dirname]: the head up to the last separator, without its
    trailing separators unless it consists of separators only. *)
Definition dirname (p : string) : string :=
  let head := PyStr.slice_to p (PyStr.rfind "/" p + 1) in
  match rstrip_sep head with
  | EmptyString => head
  | stripped => stripped
  end.

(** [os.path.join(a, b)] *)
Definition join (a b : string) : string :=
  if String.prefix "/" b then b
  else if negb (PyStr.truthy a) || PyStr.endswith a "/" then a +:+ b
  else a +:+ "/" +:+ b.

(** The [while filenameIndex < dotIndex] loop that skips leading dots:
    [true] when a character other than the dot is met before
    [dotIndex], [n] being [dotIndex - filenameIndex]. *)
Fixpoint skip_leading_dots (p : string) (filenameIndex n : nat) : bool :=
  match n with
  | O => false
  | S n' =>
      match String.get filenameIndex p with
      | Some "."%char => skip_leading_dots p (S filenameIndex) n'
      | _ => true
      end
  end.

Definition splitext (p : string) : string * string :=
  let sepIndex := PyStr.rfind "/" p in
  let dotIndex := PyStr.rfind "." p in
  if (sepIndex <? dotIndex)
     && skip_leading_dots p (Z.to_nat (sepIndex + 1))
          (Z.to_nat (dotIndex - (sepIndex + 1)))
  then (PyStr.slice_to p dotIndex, PyStr.slice_from p dotIndex)
  else (p, EmptyString).

End OsPath.

(** ** Rows of the spreadsheet *)

Abbreviation Row := (gmap string string).

(** [row.get(k, '')]; the cells are strings already, so [str(...)] is the
    identity. *)
Definition row_get (row : Row) (k : string) : string := default "" (row !! k).

(** ** [generate_new_name] *)

(** The first part of [generate_new_name] (lines 684-703): the value of
    [new_base] when the final [endswith] test is reached.  [delimiter] is
    [None] for Python's [None]. *)
Definition result_stem (row : Row) (old_name mode : string)
    (delimiter : option string) : string :=
  let prefix := PyStr.strip (row_get row "Prefix") in
  let new_field := PyStr.strip (row_get row "New_Filename") in
  if decide (mode = "Prefix") then
    if PyStr.truthy prefix then
      let base :=
        if PyStr.truthy new_field then new_field
        else (OsPath.splitext old_name).1 in
      match delimiter with
      | Some d => prefix +:+ d +:+ base
      | None => prefix +:+ base
      end
    else
      if PyStr.truthy new_field then new_field
      else (OsPath.splitext old_name).1
  else
    if PyStr.truthy new_field then new_field
    else (OsPath.splitext old_name).1.

(** [generate_new_name] (lines 682-707). *)
Definition generate_new_name (row : Row) (old_name mode ext : string)
    (delimiter : option string) : string :=
  let new_base := result_stem row old_name mode delimiter in
  if negb (PyStr.endswith new_base ext) then new_base +:+ ext else new_base.

(** ** The operating system

    The calls of [os], [os.path] and [shutil] that read or change the disk.
    [FS] is the state of the disk. *)

Class OS (FS : Type) := {
  (** [os.path.exists]: never raises. *)
  os_path_exists : FS → string → bool;
  (** [os.path.samefile]: [None] when the [os.stat] of either path raises. *)
  os_path_samefile : FS → string → string → option bool;
  (** [os.rename]: the new disk, or the text of the exception. *)
  os_rename : FS → string → string → string + FS;
  (** [os.makedirs(p, exist_ok=True)]: [None] when it raises. *)
  os_makedirs : FS → string → option FS;
  (** [shutil.copy2]: the disk after the call, returned or raised. *)
  shutil_copy2 : FS → string → string → FS;
  (** [open(p, "w")]: [None] when it raises. *)
  open_w : FS → string → option FS;
}.

(** ** The log of a pass

    Each constructor is the group of [log_file.write] calls of one branch of
    the loop body. *)

Inductive LogEntry :=
  | LogEmptyKey (rownum : nat)
  | LogNotFound (rownum : nat) (current_filename : string)
  | LogNoChange (old_name : string)
  | LogTargetExists (old_name new_name : string)
  | LogRenamed (old_name new_name notes : string)
  | LogRenameError (old_name message : string).

(** How a row was counted: the tally its branch increments, and why. *)
Inductive RowClass :=
  | SkipEmptyKey | SkipNotFound | NoChange | Collision | Renamed | RenameError.

Definition classify (e : LogEntry) : RowClass :=
  match e with
  | LogEmptyKey _ => SkipEmptyKey
  | LogNotFound _ _ => SkipNotFound
  | LogNoChange _ => NoChange
  | LogTargetExists _ _ => Collision
  | LogRenamed _ _ _ => Renamed
  | LogRenameError _ _ => RenameError
  end.

Global Instance RowClass_eq_dec : EqDecision RowClass.
Proof. solve_decision. Defined.

Global Instance LogEntry_eq_dec : EqDecision LogEntry.
Proof. solve_decision. Defined.

(** The local variables of [rename_files_from_excel] that the loop reads and
    writes, with the disk.  [processed_steps] only drives the progress bar
    and is left out. *)
Record PassState (FS : Type) := mkPass {
  disk : FS;
  files_map : gmap string string;
  log : list LogEntry;
  renamed_count : nat;
  error_count : nat;
  skipped_count : nat;
}.
Global Arguments mkPass {FS}.
Global Arguments disk {FS}.
Global Arguments files_map {FS}.
Global Arguments log {FS}.
Global Arguments renamed_count {FS}.
Global Arguments error_count {FS}.
Global Arguments skipped_count {FS}.

(** The loop body either falls through to the next row or lets an exception
    escape to the handler at the end of [rename_files_from_excel]. *)
Inductive Run (A : Type) :=
  | Completed (a : A)
  | Aborted (a : A).
Global Arguments Completed {A}.
Global Arguments Aborted {A}.

Definition run_state {A} (r : Run A) : A :=
  match r with Completed a | Aborted a => a end.

Definition completed {A} (r : Run A) : bool :=
  match r with Completed _ => true | Aborted _ => false end.

(** [files_map = {os.path.basename(p): p for p in files}] *)
Definition build_files_map (files : list string) : gmap string string :=
  foldl (λ m p, <[OsPath.basename p := p]> m) ∅ files.

Section Pass.
Context {FS : Type} `{!OS FS}.
Variables (ext mode : string) (delimiter : option string).

(** A branch that writes its entry, runs [skipped_count += 1] and
    [continue]s; and the same for [error_count]. *)
Definition skip_row (e : LogEntry) (st : PassState FS) : PassState FS :=
  mkPass (disk st) (files_map st) (log st ++ [e])
         (renamed_count st) (error_count st) (S (skipped_count st)).

Definition error_row (e : LogEntry) (st : PassState FS) : PassState FS :=
  mkPass (disk st) (files_map st) (log st ++ [e])
         (renamed_count st) (S (error_count st)) (skipped_count st).

(** [os.path.exists(new_path) and not (os.path.exists(new_path) and
    os.path.samefile(old_path, new_path))] *)
Definition target_taken (fs : FS) (old_path new_path : string)
    : option bool :=
  if os_path_exists fs new_path
  then negb <$> os_path_samefile fs old_path new_path
  else Some false.

(** The [try] block (lines 839-855): [os.rename] unless [dry_run], then the
    entry, [renamed_count += 1] and the update of [files_map]; an exception
    is caught, logged and counted in [error_count]. *)
Definition try_rename (dry_run : bool)
    (old_name new_name old_path new_path notes : string)
    (st : PassState FS) : PassState FS :=
  match (if dry_run then inr (disk st)
         else os_rename (disk st) old_path new_path) with
  | inr fs' =>
      mkPass fs' (<[new_name := new_path]> (delete old_name (files_map st)))
             (log st ++ [LogRenamed old_name new_name notes])
             (S (renamed_count st)) (error_count st) (skipped_count st)
  | inl e => error_row (LogRenameError old_name e) st
  end.

(** The body of [for idx, row in df.iterrows()] in
    [rename_files_from_excel] (lines 802-860).  The calls that only move
    the progress bar or sleep are left out.  [os.path.samefile] stands
    outside the [try] block, so its exception leaves the loop. *)
Definition process_row (dry_run : bool) (idx : nat) (row : Row)
    (st : PassState FS) : Run (PassState FS) :=
  let rownum := S idx in
  let current_filename := PyStr.strip (row_get row "Current_Filename") in
  let notes := PyStr.strip (row_get row "Notes") in
  if negb (PyStr.truthy current_filename) then
    Completed (skip_row (LogEmptyKey rownum) st)
  else
    match files_map st !! current_filename with
    | None => Completed (skip_row (LogNotFound rownum current_filename) st)
    | Some old_path =>
        let old_name := current_filename in
        let new_name :=
          generate_new_name row old_name mode ext delimiter in
        let new_path := OsPath.join (OsPath.dirname old_path) new_name in
        if decide (old_name = new_name) then
          Completed (skip_row (LogNoChange old_name) st)
        else
          match target_taken (disk st) old_path new_path with
          | None => Aborted st
          | Some true =>
              Completed (error_row (LogTargetExists old_name new_name) st)
          | Some false =>
              Completed (try_rename dry_run old_name new_name
                                    old_path new_path notes st)
          end
    end.

Fixpoint rename_loop (dry_run : bool) (idx : nat) (rows : list Row)
    (st : PassState FS) : Run (PassState FS) :=
  match rows with
  | [] => Completed st
  | row :: rest =>
      match process_row dry_run idx row st with
      | Completed st' => rename_loop dry_run (S idx) rest st'
      | Aborted st' => Aborted st'
      end
  end.

(** The state on entry to the loop. *)
Definition initial_state (fs : FS) (files : list string) : PassState FS :=
  mkPass fs (build_files_map files) [] 0 0 0.

(** The classes of the rows handled so far, in row order. *)
Definition classes (st : PassState FS) : list RowClass :=
  classify <$> log st.

(** The loop as [rename_files_from_excel] enters it. *)
Definition pass (dry_run : bool) (rows : list Row) (fs : FS)
    (files : list string) : Run (PassState FS) :=
  rename_loop dry_run 0 rows (initial_state fs files).

(** The local variables of the loop body, as functions of the row:
    [current_filename] (which is also [old_name]), [new_name] and
    [new_path]. *)
Definition key_of (row : Row) : string :=
  PyStr.strip (row_get row "Current_Filename").

Definition new_name_of (row : Row) : string :=
  generate_new_name row (key_of row) mode ext delimiter.

Definition new_path_of (row : Row) (old_path : string) : string :=
  OsPath.join (OsPath.dirname old_path) (new_name_of row).

(** The row passes both tests on [current_filename]: it is not empty and it
    is a key of [fm], which leads to [old_path]. *)
Definition matched (fm : gmap string string) (row : Row)
    (old_path : string) : Prop :=
  key_of row ≠ "" ∧ fm !! key_of row = Some old_path.

End Pass.

(** The counter a class of row increments. *)
Inductive Tally := InRenamed | InErrors | InSkipped.

Global Instance Tally_eq_dec : EqDecision Tally.
Proof. solve_decision. Defined.

Definition tally_of (c : RowClass) : Tally :=
  match c with
  | Renamed => InRenamed
  | Collision | RenameError => InErrors
  | SkipEmptyKey | SkipNotFound | NoChange => InSkipped
  end.

(** The number of entries of a log that went to the counter [t]. *)
Definition tallied (t : Tally) (l : list LogEntry) : nat :=
  length (filter (λ e, tally_of (classify e) = t) l).

(** The three counters agree with the log. *)
Definition counters_match_log {FS} (st : PassState FS) : Prop :=
  renamed_count st = tallied InRenamed (log st)
  ∧ error_count st = tallied InErrors (log st)
  ∧ skipped_count st = tallied InSkipped (log st).

(** Every key of [files_map] is a listed base name or the new name of a
    rename logged earlier in the pass. *)
Definition keys_accounted {FS} (files : list string)
    (st : PassState FS) : Prop :=
  ∀ k, is_Some (files_map st !! k) →
    k ∈ (OsPath.basename <$> files)
    ∨ ∃ o notes, LogRenamed o k notes ∈ log st.


(** ** [rename_files_from_excel] around the loop *)

(** The check boxes the function reads through [self]. *)
Record Config := mkConfig {
  backup_var : bool;
  dry_run_var : bool;
}.

(** The three readings of [datetime.now()], already formatted. *)
Record Clock := mkClock {
  backup_stamp : string;
  log_stamp : string;
  header_stamp : string;
}.

(** The lines written before the loop: the run parameters.  [h_backup] is
    the backup folder of [backup_msg], [None] for the empty message. *)
Record Header := mkHeader {
  h_timestamp : string;
  h_excel : string;
  h_target : string;
  h_mode : string;
  h_delimiter : option string;
  h_ext : string;
  h_backup : option string;
}.

(** The lines written after the loop. *)
Record Summary := mkSummary {
  sum_renamed : nat;
  sum_errors : nat;
  sum_skipped : nat;
  sum_total : nat;
}.

(** The contents of the log file when the function leaves the [with] block;
    [lf_summary] is [None] when an exception left the loop early. *)
Record LogFile := mkLogFile {
  lf_header : Header;
  lf_rows : list LogEntry;
  lf_summary : option Summary;
}.

(** What a call leaves behind: the disk, the value returned ([log_path] or
    [None]) and the log file, if it was opened, with its path. *)
Record Outcome (FS : Type) := mkOutcome {
  out_disk : FS;
  out_returned : option string;
  out_log : option (string * LogFile);
}.
Global Arguments mkOutcome {FS}.
Global Arguments out_disk {FS}.
Global Arguments out_returned {FS}.
Global Arguments out_log {FS}.

Section Execute.
Context {FS : Type} `{!OS FS}.

(** [create_backup]: [None] when [os.makedirs] raises; a failed copy is
    swallowed by its own [try]. *)
Definition create_backup (fs : FS) (target_folder : string)
    (files : list string) (stamp : string) : option (FS * string) :=
  let backup_folder := OsPath.join target_folder ("backup_" +:+ stamp) in
  fs1 ← os_makedirs fs backup_folder;
  Some (foldl (λ d f, shutil_copy2 d f
                        (OsPath.join backup_folder (OsPath.basename f)))
              fs1 files,
        backup_folder).

(** The pre-scan: the number of rows that will reach the collision test.
    It only sets the progress bar and the delay between two steps. *)
Definition planned_renames (ext mode : string) (delimiter : option string)
    (df : list Row) (fm : gmap string string) : nat :=
  length (filter (λ row,
    let current_filename := PyStr.strip (row_get row "Current_Filename") in
    PyStr.truthy current_filename = true
    ∧ is_Some (fm !! current_filename)
    ∧ current_filename
        ≠ generate_new_name row current_filename mode ext delimiter) df).

(** [log_path]: [os.path.join(target_folder, f"rename_log_{timestamp}.txt")] *)
Definition log_path_of (clock : Clock) (target_folder : string) : string :=
  OsPath.join target_folder ("rename_log_" +:+ log_stamp clock +:+ ".txt").

(** [rename_files_from_excel] (lines 746-884), entered with the rows that
    [read_excel_safe] returned and the listing that [get_files] returned.
    An exception of [os.makedirs], of [open] or of the loop reaches the
    handlers at the end, which return [None]. *)
Definition rename_files_from_excel (cfg : Config) (clock : Clock)
    (df : list Row) (files : list string) (fs : FS)
    (excel_path target_folder ext mode : string)
    (delimiter : option string) : Outcome FS :=
  let backup :=
    if backup_var cfg && negb (dry_run_var cfg)
    then prod_map id Some
           <$> create_backup fs target_folder files (backup_stamp clock)
    else Some (fs, None) in
  match backup with
  | None => mkOutcome fs None None
  | Some (fs1, backup_folder) =>
      let log_path := log_path_of clock target_folder in
      match open_w fs1 log_path with
      | None => mkOutcome fs1 None None
      | Some fs2 =>
          let header :=
            mkHeader (header_stamp clock) excel_path target_folder mode
                     delimiter ext backup_folder in
          match rename_loop ext mode delimiter (dry_run_var cfg) 0 df
                  (initial_state fs2 files) with
          | Completed st =>
              let summary :=
                mkSummary (renamed_count st) (error_count st)
                  (skipped_count st)
                  (renamed_count st + error_count st + skipped_count st) in
              mkOutcome (disk st) (Some log_path)
                (Some (log_path,
                       mkLogFile header (log st) (Some summary)))
          | Aborted st =>
              mkOutcome (disk st) None
                (Some (log_path, mkLogFile header (log st) None))
          end
      end
  end.

End Execute.

(** ** [preview_changes] *)

(** The group of [text_widget.insert] calls of one branch of the loop. *)
Inductive PreviewEntry :=
  | PvEmptyKey (rownum : nat)
  | PvNotFound (rownum : nat) (current_filename : string)
  | PvCollision (rownum : nat) (old_name new_name : string)
  | PvChange (rownum : nat) (old_name new_name : string)
  | PvNoChange (rownum : nat) (old_name : string).

Definition classify_preview (e : PreviewEntry) : RowClass :=
  match e with
  | PvEmptyKey _ => SkipEmptyKey
  | PvNotFound _ _ => SkipNotFound
  | PvCollision _ _ _ => Collision
  | PvChange _ _ _ => Renamed
  | PvNoChange _ _ => NoChange
  end.

Record PreviewState := mkPreview {
  changes_count : nat;
  missing_files : nat;
  collisions : nat;
  proposed_new_names : gset string;
  preview_text : list PreviewEntry;
}.

Section Preview.
Context {FS : Type} `{!OS FS}.
Variables (ext mode : string) (delimiter : option string).
Variables (fs : FS) (fm : gmap string string).

(** The body of [for idx, row in df.iterrows()] in [preview_changes]
    (lines 596-633).  The disk and [files_map] are only read. *)
Definition preview_row (idx : nat) (row : Row) (st : PreviewState)
    : PreviewState :=
  let rownum := S idx in
  let current_filename := PyStr.strip (row_get row "Current_Filename") in
  let say e := preview_text st ++ [e] in
  if negb (PyStr.truthy current_filename) then
    mkPreview (changes_count st) (S (missing_files st)) (collisions st)
              (proposed_new_names st) (say (PvEmptyKey rownum))
  else
    match fm !! current_filename with
    | None =>
        mkPreview (changes_count st) (S (missing_files st)) (collisions st)
                  (proposed_new_names st)
                  (say (PvNotFound rownum current_filename))
    | Some old_path =>
        let old_name := current_filename in
        let new_name := generate_new_name row old_name mode ext delimiter in
        if decide (old_name ≠ new_name) then
          if bool_decide (new_name ∈ proposed_new_names st)
             || os_path_exists fs
                  (OsPath.join (OsPath.dirname old_path) new_name)
          then
            mkPreview (S (changes_count st)) (missing_files st)
                      (S (collisions st)) (proposed_new_names st)
                      (say (PvCollision rownum old_name new_name))
          else
            mkPreview (S (changes_count st)) (missing_files st)
                      (collisions st)
                      ({[new_name]} ∪ proposed_new_names st)
                      (say (PvChange rownum old_name new_name))
        else
          mkPreview (changes_count st) (missing_files st) (collisions st)
                    (proposed_new_names st) (say (PvNoChange rownum old_name))
    end.

Fixpoint preview_loop (idx : nat) (rows : list Row) (st : PreviewState)
    : PreviewState :=
  match rows with
  | [] => st
  | row :: rest => preview_loop (S idx) rest (preview_row idx row st)
  end.

Definition preview_start : PreviewState := mkPreview 0 0 0 ∅ [].

Definition preview_classes (st : PreviewState) : list RowClass :=
  classify_preview <$> preview_text st.

End Preview.

(** [preview_changes] from the listing: [files_map] is built as in the
    execution pass and never updated. *)
Definition preview_changes {FS : Type} `{!OS FS} (df : list Row)
    (files : list string) (fs : FS) (ext mode : string)
    (delimiter : option string) : PreviewState :=
  preview_loop ext mode delimiter fs (build_files_map files) 0 df
               preview_start.

(** ** A disk to run the program on

    Paths are compared as written (a case-sensitive file system).  Each path
    leads to the identity of a file, so two paths may name one file (hard
    links); [locked] holds the paths that cannot be renamed.  The disk is
    one file system on which the folder of every path is there: no rename
    fails for a missing folder or for a target on another device. *)

Record Disk := mkDisk {
  inodes : gmap string nat;
  locked : gset string;
}.

Definition fresh_inode (d : Disk) : nat :=
  S (map_fold (λ _ i acc, i `max` acc)%nat 0%nat (inodes d)).

Definition disk_exists (d : Disk) (p : string) : bool :=
  bool_decide (is_Some (inodes d !! p)).

Definition disk_samefile (d : Disk) (a b : string) : option bool :=
  i ← inodes d !! a; j ← inodes d !! b; Some (bool_decide (i = j)).

(** [rename(2)]: nothing happens when both paths already name the file. *)
Definition disk_rename (d : Disk) (a b : string) : string + Disk :=
  if bool_decide (a ∈ locked d) then inl "Permission denied"
  else
    match inodes d !! a with
    | None => inl "No such file or directory"
    | Some i =>
        if bool_decide (inodes d !! b = Some i) then inr d
        else inr (mkDisk (<[b := i]> (delete a (inodes d))) (locked d))
    end.

Definition disk_copy (d : Disk) (src dst : string) : Disk :=
  match inodes d !! src with
  | None => d
  | Some _ => mkDisk (<[dst := fresh_inode d]> (inodes d)) (locked d)
  end.

Definition disk_create (d : Disk) (p : string) : option Disk :=
  Some (if disk_exists d p then d
        else mkDisk (<[p := fresh_inode d]> (inodes d)) (locked d)).

Global Instance disk_os : OS Disk := {|
  os_path_exists := disk_exists;
  os_path_samefile := disk_samefile;
  os_rename := disk_rename;
  os_makedirs d _ := Some d;
  shutil_copy2 := disk_copy;
  open_w := disk_create;
|}.

(** A folder of plain files, the [i]-th name being file number [i]. *)
Definition folder_of (dir : string) (names : list string) : Disk :=
  mkDisk (list_to_map (imap (λ i n, (OsPath.join dir n, i)) names)) ∅.

Definition listing_of (dir : string) (names : list string) : list string :=
  OsPath.join dir <$> names.

(** A row with the four columns the program reads. *)
Definition mk_row (current_filename prefix new_filename notes : string)
    : Row :=
  {[ "Current_Filename" := current_filename; "Prefix" := prefix;
     "New_Filename" := new_filename; "Notes" := notes ]}.

(** The same disk with [p] made impossible to rename. *)
Definition lock_path (p : string) (d : Disk) : Disk :=
  mkDisk (inodes d) ({[p]} ∪ locked d).

(** The disk and [files_map] of a pass are in order: every path of
    [files_map] is on the disk, no two keys lead to one path, and no two
    paths of the disk name one file. *)
Definition no_hard_links (d : Disk) : Prop :=
  ∀ p q i, inodes d !! p = Some i → inodes d !! q = Some i → p = q.

Definition in_order (st : PassState Disk) : Prop :=
  (∀ k p, files_map st !! k = Some p → is_Some (inodes (disk st) !! p))
  ∧ (∀ k1 k2 p, files_map st !! k1 = Some p → files_map st !! k2 = Some p →
       k1 = k2)
  ∧ no_hard_links (disk st).

(** A folder ["/d"] with two files, its listing, and a clock. *)
Definition demo_disk : Disk := folder_of "/d" ["a.pdf"; "b.pdf"].
Definition demo_files : list string := listing_of "/d" ["a.pdf"; "b.pdf"].
Definition demo_clock : Clock :=
  mkClock "20251227_120000" "20251227_120001" "2025-12-27 12:00:01".

(** The same folder with a third file, ["c.pdf"], and its listing. *)
Definition full_disk : Disk := folder_of "/d" ["a.pdf"; "b.pdf"; "c.pdf"].
Definition full_files : list string :=
  listing_of "/d" ["a.pdf"; "b.pdf"; "c.pdf"].

(** The pass on the disk of this file, in Replace mode with [".pdf"]. *)
Definition demo_pass (dry_run : bool) (rows : list Row) (d : Disk)
    (files : list string) : PassState Disk :=
  run_state (pass ".pdf" "Replace" (Some "-") dry_run rows d files).

(** ** What a pass may do to the disk of this file *)

(** Two disks hold the same files: as many paths, and the same identities. *)
Definition same_files (d d' : Disk) : Prop :=
  size (inodes d) = size (inodes d')
  ∧ ∀ i, (∃ p, inodes d !! p = Some i) ↔ (∃ p, inodes d' !! p = Some i).

(** ** [str.strip] on lists of characters *)

(** [lstrip] on the characters of a string. *)
Fixpoint drop_space (l : list ascii) : list ascii :=
  match l with
  | [] => []
  | c :: r => if PyStr.isspace c then drop_space r else l
  end.

(** The names a pass writes as the source of a row are stripped keys. *)
Definition source_is_stripped (e : LogEntry) : Prop :=
  match e with
  | LogNoChange o | LogTargetExists o _ | LogRenamed o _ _
  | LogRenameError o _ => PyStr.strip o = o ∧ o ≠ ""
  | LogEmptyKey _ | LogNotFound _ _ => True
  end.

(** ** Reading a preview *)

(** The number of rows a preview shows under the class [c]. *)
Definition shown_as (c : RowClass) (l : list PreviewEntry) : nat :=
  length (filter (λ e, classify_preview e = c) l).

(** The new names of the rows a preview shows as a change, in row order. *)
Definition proposal (e : PreviewEntry) : option string :=
  match e with PvChange _ _ new_name => Some new_name | _ => None end.

Definition proposals (l : list PreviewEntry) : list string :=
  omap proposal l.

(** The counters and the set of a preview agree with what it shows. *)
Definition preview_in_step (st : PreviewState) : Prop :=
  changes_count st
  = (shown_as Renamed (preview_text st)
     + shown_as Collision (preview_text st))%nat
  ∧ collisions st = shown_as Collision (preview_text st)
  ∧ missing_files st
    = (shown_as SkipEmptyKey (preview_text st)
       + shown_as SkipNotFound (preview_text st))%nat
  ∧ NoDup (proposals (preview_text st))
  ∧ ∀ n, n ∈ proposed_new_names st ↔ n ∈ proposals (preview_text st).

(** ** The template of [scan_and_create_template]

    The rows of [data] (lines 389-399), one for each listed path, numbered
    from 1, every cell as the string that is written to the sheet
    ([read_excel_safe] reads the sheet with [dtype=str]). *)

Definition digit_char (d : nat) : ascii := ascii_of_nat (48 + d).

Fixpoint decimal_from (fuel n : nat) (acc : string) : string :=
  match fuel with
  | O => acc
  | S fuel' =>
      let acc' := String (digit_char (n mod 10)) acc in
      if (n / 10 =? 0)%nat then acc' else decimal_from fuel' (n / 10) acc'
  end.

(** [str(n)] *)
Definition str_of_nat (n : nat) : string := decimal_from (S n) n "".

Fixpoint zeros (k : nat) : string :=
  match k with O => "" | S k' => String "0" (zeros k') end.

(** [f"{n:03d}"] *)
Definition zero_pad3 (n : nat) : string :=
  zeros (3 - String.length (str_of_nat n)) +:+ str_of_nat n.

Definition template_row (idx : nat) (fpath : string) : Row :=
  let fname := OsPath.basename fpath in
  let base := (OsPath.splitext fname).1 in
  {[ "Row" := str_of_nat idx; "Current_Filename" := fname;
     "Prefix" := zero_pad3 idx; "New_Filename" := base; "Notes" := "" ]}.

(** [for idx, fpath in enumerate(files, start=idx)] *)
Fixpoint template_rows_from (idx : nat) (files : list string) : list Row :=
  match files with
  | [] => []
  | fpath :: rest => template_row idx fpath :: template_rows_from (S idx) rest
  end.

Definition template_rows (files : list string) : list Row :=
  template_rows_from 1 files.

(** A file name that the template gives back: no blank at either end of the
    name or of its stem, and the stem takes the extension of the run to make
    the name again. *)
Definition plainly_named (ext name : string) : Prop :=
  let stem := (OsPath.splitext name).1 in
  name ≠ ""
  ∧ PyStr.strip name = name
  ∧ PyStr.strip stem = stem
  ∧ (if PyStr.endswith stem ext then stem else stem +:+ ext) = name.

(** ** Listing the folder

    The calls of [os], [glob] and [pandas] that [get_files] and
    [find_latest_template] make on the disk. *)

Class Lister (FS : Type) := {
  (** [os.listdir]: the names in a folder, [None] when it raises. *)
  os_listdir : FS → string → option (list string);
  (** [os.path.isfile]: never raises. *)
  os_path_isfile : FS → string → bool;
  (** [os.walk]: for each folder met, its path and the names of its files;
      it raises nothing, since no [onerror] is given. *)
  os_walk : FS → string → list (string * list string);
  (** [glob.glob]: the paths that match a pattern. *)
  glob_glob : FS → string → list string;
  (** [os.path.getmtime], in a unit of time fine enough to tell two stamps
      apart; [None] when it raises. *)
  os_path_getmtime : FS → string → option Z;
  (** ['Rename Index' in pd.ExcelFile(p).sheet_names]; [None] when
      [pd.ExcelFile] raises. *)
  has_rename_index : FS → string → option bool;
}.

Section Listing.
Context {FS : Type} `{!Lister FS}.

(** [get_files] (lines 665-680).  [files.sort()] orders strings by code
    points, as [String.le] does; an exception of [os.listdir] is swallowed
    before [files] is assigned, so the empty list is returned. *)
Definition get_files (fs : FS) (folder ext : string) (recursive : bool)
    : list string :=
  if recursive then
    merge_sort String.le
      (concat ((λ entry : string * list string,
                  OsPath.join entry.1
                    <$> filter (λ f, PyStr.endswith f ext = true) entry.2)
               <$> os_walk fs folder))
  else
    match os_listdir fs folder with
    | None => []
    | Some names =>
        merge_sort String.le
          (OsPath.join folder
             <$> filter (λ f, PyStr.endswith f ext
                              && os_path_isfile fs (OsPath.join folder f)
                              = true) names)
    end.

End Listing.

(** ** [find_latest_template] *)

(** [candidates.sort(key=os.path.getmtime, reverse=True)] on paths paired
    with their stamps: later stamps first, equal stamps in their first
    order. *)
Fixpoint insert_by_mtime (x : string * Z) (l : list (string * Z))
    : list (string * Z) :=
  match l with
  | [] => [x]
  | y :: r => if x.2 <=? y.2 then y :: insert_by_mtime x r else x :: l
  end.

Definition newest_first (l : list (string * Z)) : list (string * Z) :=
  foldl (λ acc x, insert_by_mtime x acc) [] l.

Section Latest.
Context {FS : Type} `{!Lister FS}.

(** The [for c in candidates] loop: the first workbook that opens and has
    the sheet. *)
Fixpoint first_with_sheet (fs : FS) (l : list string) : option string :=
  match l with
  | [] => None
  | c :: r =>
      match has_rename_index fs c with
      | Some true => Some c
      | _ => first_with_sheet fs r
      end
  end.

(** The workbooks the function looks at. *)
Definition template_candidates (fs : FS) (folder : string) : list string :=
  match glob_glob fs (OsPath.join folder "sheet-index-*.xlsx") with
  | [] => glob_glob fs (OsPath.join folder "*.xlsx")
  | named => named
  end.

(** [find_latest_template] (lines 538-556).  An exception of
    [os.path.getmtime] during the sort reaches the outer handler. *)
Definition find_latest_template (fs : FS) (folder : string)
    : option string :=
  match template_candidates fs folder with
  | [] => None
  | candidates =>
      stamped ← mapM (λ p, pair p <$> os_path_getmtime fs p) candidates;
      first_with_sheet fs (fst <$> newest_first stamped)
  end.

End Latest.

(** ** A folder tree to list *)

Record Shelf := mkShelf {
  (** the folders as [os.walk] meets them, each with the names of its files *)
  shelf_folders : list (string * list string);
  shelf_stamps : gmap string Z;
  (** the workbooks that have the sheet *)
  shelf_indexed : gset string;
}.

Definition shelf_paths (s : Shelf) : list string :=
  concat ((λ e : string * list string, OsPath.join e.1 <$> e.2)
          <$> shelf_folders s).

Definition before_star (pattern : string) : string :=
  PyStr.slice_to pattern (PyStr.rfind "*" pattern).

Definition after_star (pattern : string) : string :=
  PyStr.slice_from pattern (PyStr.rfind "*" pattern + 1).

(** A pattern with one star. *)
Definition star_match (pattern p : string) : bool :=
  String.prefix (before_star pattern) p
  && PyStr.endswith p (after_star pattern)
  && (String.length (before_star pattern)
      + String.length (after_star pattern) <=? String.length p)%nat.

Global Instance shelf_lister : Lister Shelf := {|
  os_listdir s p :=
    snd <$> head (filter (λ e : string * list string, e.1 = p)
                         (shelf_folders s));
  os_path_isfile s p := bool_decide (p ∈ shelf_paths s);
  os_walk s p :=
    filter (λ e : string * list string,
              e.1 = p ∨ String.prefix (p +:+ "/") e.1 = true)
           (shelf_folders s);
  glob_glob s pattern :=
    filter (λ p, star_match pattern p = true) (shelf_paths s);
  os_path_getmtime s p := shelf_stamps s !! p;
  has_rename_index s p :=
    if bool_decide (p ∈ shelf_paths s)
    then Some (bool_decide (p ∈ shelf_indexed s)) else None;
|}.

(** ["/d"] with two files and a subfolder that has a file of the same name
    as one of them. *)
Definition demo_shelf : Shelf :=
  mkShelf [("/d", ["b.pdf"; "a.pdf"; "notes.txt"]); ("/d/old", ["a.pdf"])]
          ∅ ∅.

(** ["/w"] with three workbooks; the newest has no sheet
    ['Rename Index']. *)
Definition demo_books : Shelf :=
  mkShelf [("/w", ["sheet-index-1.xlsx"; "sheet-index-2.xlsx"; "list.xlsx"])]
          {[ "/w/sheet-index-1.xlsx" := 10; "/w/sheet-index-2.xlsx" := 30;
             "/w/list.xlsx" := 20 ]}
          {[ "/w/sheet-index-1.xlsx"; "/w/list.xlsx" ]}.

(** ** Reading a name

    [only_dots s]: every character of [s] is the dot ([s] may be empty);
    [os.path.splitext] takes no extension off a name that has only dots
    before its last dot. *)
Definition only_dots (s : string) : bool :=
  forallb (λ c, Ascii.eqb c ".") (String.list_ascii_of_string s).

(** ** A disk with dangling links

    [link_files] holds the paths behind which there is a file; [dangling]
    holds the names that are symbolic links to nothing: entries of their
    folder for which [os.stat] fails, so that [os.path.exists] is [False]
    and [os.path.samefile] raises.  [rename(2)] replaces such an entry as
    it replaces any other; a link that is itself renamed moves as a link.
    Writing through a dangling link makes the file it points to, after
    which the name is no longer dangling. *)

Record LinkDisk := mkLinkDisk {
  link_files : Disk;
  dangling : gset string;
}.

Definition link_rename (d : LinkDisk) (a b : string) : string + LinkDisk :=
  if bool_decide (a ∈ dangling d) then
    if bool_decide (a ∈ locked (link_files d)) then inl "Permission denied"
    else inr (mkLinkDisk
                (mkDisk (delete b (inodes (link_files d)))
                        (locked (link_files d)))
                ({[b]} ∪ dangling d ∖ {[a]}))
  else
    match disk_rename (link_files d) a b with
    | inl e => inl e
    | inr files => inr (mkLinkDisk files (dangling d ∖ {[b]}))
    end.

Definition link_copy (d : LinkDisk) (src dst : string) : LinkDisk :=
  match inodes (link_files d) !! src with
  | None => d
  | Some _ =>
      mkLinkDisk (disk_copy (link_files d) src dst) (dangling d ∖ {[dst]})
  end.

Definition link_create (d : LinkDisk) (p : string) : option LinkDisk :=
  files ← disk_create (link_files d) p;
  Some (mkLinkDisk files (dangling d ∖ {[p]})).

Global Instance link_os : OS LinkDisk := {|
  os_path_exists d := disk_exists (link_files d);
  os_path_samefile d := disk_samefile (link_files d);
  os_rename := link_rename;
  os_makedirs d _ := Some d;
  shutil_copy2 := link_copy;
  open_w := link_create;
|}.

(** * Properties *)

(** ** Strings *)

Lemma list_ascii_app (a b : string) :
  String.list_ascii_of_string (a +:+ b)
  = String.list_ascii_of_string a ++ String.list_ascii_of_string b.
Proof. induction a as [|c a IH]; simpl; [done | by rewrite IH]. Qed.

Lemma list_ascii_inj (a b : string) :
  String.list_ascii_of_string a = String.list_ascii_of_string b → a = b.
Proof.
  intros E.
  rewrite <- (String.string_of_list_ascii_of_string a),
          <- (String.string_of_list_ascii_of_string b).
  by rewrite E.
Qed.

Lemma endswith_true (s e : string) :
  PyStr.endswith s e = true ↔ ∃ p, s = p +:+ e.
Proof.
  unfold PyStr.endswith. rewrite bool_decide_eq_true. split.
  - intros [k Hk].
    exists (String.string_of_list_ascii k). apply list_ascii_inj.
    by rewrite list_ascii_app, String.list_ascii_of_string_of_list_ascii.
  - intros [p ->]. exists (String.list_ascii_of_string p).
    apply list_ascii_app.
Qed.

Lemma string_app_assoc (a b c : string) : (a +:+ b) +:+ c = a +:+ b +:+ c.
Proof.
  apply list_ascii_inj. rewrite !list_ascii_app. by rewrite <- app_assoc.
Qed.

Lemma string_app_inv_tail (a b e : string) : a +:+ e = b +:+ e → a = b.
Proof.
  intros E. apply list_ascii_inj.
  apply (f_equal String.list_ascii_of_string) in E.
  rewrite !list_ascii_app in E. by apply app_inv_tail in E.
Qed.

(** A name that ends with the extension twice already ends with it once. *)
Lemma endswith_twice_once (s e : string) :
  PyStr.endswith s (e +:+ e) = true → PyStr.endswith s e = true.
Proof.
  rewrite !endswith_true. intros [p ->]. exists (p +:+ e).
  by rewrite string_app_assoc.
Qed.

(** ** The name generator *)

(** The last three lines of [generate_new_name]. *)
Lemma generate_new_name_finish row old_name mode ext delimiter :
  generate_new_name row old_name mode ext delimiter
  = let stem := result_stem row old_name mode delimiter in
    if PyStr.endswith stem ext then stem else stem +:+ ext.
Proof. unfold generate_new_name. simpl. by destruct (PyStr.endswith _ _). Qed.

(** C6, as the code has it.  The final name is the stem when the stem ends
    with the extension and the stem followed by the extension otherwise; it
    always ends with the extension; and it ends with the extension written
    twice exactly when the stem already did, so the generator itself never
    doubles it. *)
Theorem extension_appended_once (row : Row)
    (old_name mode ext : string) (delimiter : option string) :
  let stem := result_stem row old_name mode delimiter in
  let final := generate_new_name row old_name mode ext delimiter in
  final = (if PyStr.endswith stem ext then stem else stem +:+ ext)
  ∧ (∃ p, final = p +:+ ext)
  ∧ PyStr.endswith final (ext +:+ ext) = PyStr.endswith stem (ext +:+ ext).
Proof.
  intros stem final. subst final. rewrite generate_new_name_finish.
  fold stem. simpl.
  destruct (PyStr.endswith stem ext) eqn:E.
  - split; [done|]. split; [by apply endswith_true|done].
  - split; [done|]. split; [by eexists|].
    assert (PyStr.endswith stem (ext +:+ ext) = false) as ->.
    { apply not_true_is_false. intros H%endswith_twice_once. congruence. }
    apply not_true_is_false. intros [p Hp]%endswith_true.
    rewrite <- string_app_assoc in Hp. apply string_app_inv_tail in Hp.
    assert (PyStr.endswith stem ext = true) by (apply endswith_true; eauto).
    congruence.
Qed.

(** C6, the claim as written fails: a stem that already carries the
    extension twice is returned as it is, and the final name then ends with
    the extension twice. *)
Lemma extension_twice_at_end :
  generate_new_name (mk_row "x.pdf" "" "a.pdf.pdf" "") "x.pdf"
    "Replace" ".pdf" (Some "-") = "a.pdf.pdf"
  ∧ PyStr.endswith "a.pdf.pdf" (".pdf" +:+ ".pdf") = true.
Proof. by vm_compute. Qed.

(** C10. Outside Prefix mode the generated name is a function of the
    [New_Filename] cell, the matched name and the extension only: two rows
    that agree on [New_Filename] get the same name whatever their [Prefix]
    cells and whatever the two delimiters. *)
Theorem replace_ignores_prefix_and_delimiter (row1 row2 : Row)
    (old_name mode ext : string) (delimiter1 delimiter2 : option string) :
  mode ≠ "Prefix" →
  row_get row1 "New_Filename" = row_get row2 "New_Filename" →
  generate_new_name row1 old_name mode ext delimiter1
  = generate_new_name row2 old_name mode ext delimiter2.
Proof.
  intros Hmode Hnew. unfold generate_new_name, result_stem.
  rewrite !decide_False by done. by rewrite Hnew.
Qed.

(** C10 on two rows that differ in [Prefix], with two delimiters. *)
Lemma replace_ignores_prefix_and_delimiter_witness :
  generate_new_name (mk_row "scan.pdf" "001" "Report" "") "scan.pdf"
    "Replace" ".pdf" (Some "-")
  = generate_new_name (mk_row "scan.pdf" "zz" "Report" "") "scan.pdf"
      "Replace" ".pdf" None.
Proof.
  apply (replace_ignores_prefix_and_delimiter
           (mk_row "scan.pdf" "001" "Report" "")
           (mk_row "scan.pdf" "zz" "Report" "")
           "scan.pdf" "Replace" ".pdf" (Some "-") None).
  - discriminate.
  - reflexivity.
Defined.

(** ** The loop of the execution pass *)

(** Open one row of [process_row]: every test of the body becomes a case. *)
Ltac open_row :=
  unfold process_row, try_rename, target_taken, skip_row, error_row in *;
  repeat case_match; simplify_eq/=.

Lemma tallied_snoc t l e :
  tallied t (l ++ [e])
  = (tallied t l + if decide (tally_of (classify e) = t) then 1 else 0)%nat.
Proof.
  unfold tallied. rewrite filter_app, length_app. f_equal.
  rewrite filter_cons, filter_nil. by case_decide.
Qed.

Lemma tallied_total l :
  (tallied InRenamed l + tallied InErrors l + tallied InSkipped l)%nat
  = length l.
Proof.
  unfold tallied. induction l as [|e l IH]; [done|].
  rewrite !filter_cons. simpl length. rewrite <- IH.
  destruct e; simpl; repeat case_decide; simplify_eq/=; lia.
Qed.

Section PassFacts.
Context {FS : Type} `{!OS FS}.
Variables (ext mode : string) (delimiter : option string).

#[local] Abbreviation step := (process_row ext mode delimiter).
#[local] Abbreviation loop := (rename_loop ext mode delimiter).

(** An exception leaves the state as the row found it. *)
Lemma step_aborted dry idx row (st st' : PassState FS) :
  step dry idx row st = Aborted st' → st' = st.
Proof. intros. by open_row. Qed.

(** A row that is handled writes one entry and moves one counter, the one
    of its class. *)
Lemma step_completed dry idx row (st st' : PassState FS) :
  step dry idx row st = Completed st' →
  ∃ e, log st' = log st ++ [e]
    ∧ (counters_match_log st → counters_match_log st').
Proof.
  intros Hs. unfold counters_match_log.
  open_row; eexists; (split; [done|]); rewrite !tallied_snoc; simpl;
    intros (-> & -> & ->); repeat case_decide; simplify_eq; lia.
Qed.

Lemma loop_app dry idx pre post (st : PassState FS) :
  loop dry idx (pre ++ post) st
  = match loop dry idx pre st with
    | Completed st' => loop dry (idx + length pre) post st'
    | Aborted st' => Aborted st'
    end.
Proof.
  revert idx st. induction pre as [|row pre IH]; intros idx st; simpl.
  - by rewrite Nat.add_0_r.
  - destruct (step dry idx row st); [|done].
    rewrite IH. by replace (S idx + length pre)%nat
                      with (idx + S (length pre))%nat by lia.
Qed.

(** The loop only appends to the log, one entry for each row it handles,
    and keeps the counters in step with it. *)
Lemma loop_log dry idx rows (st : PassState FS) :
  ∃ out, log (run_state (loop dry idx rows st)) = log st ++ out
    ∧ (length out ≤ length rows)%nat
    ∧ (completed (loop dry idx rows st) = true → length out = length rows)
    ∧ (counters_match_log st →
       counters_match_log (run_state (loop dry idx rows st))).
Proof.
  revert idx st. induction rows as [|row rows IH]; intros idx st; simpl.
  - exists []. by rewrite app_nil_r.
  - destruct (step dry idx row st) as [st1|st1] eqn:Hs.
    + apply step_completed in Hs as (e & He & Hc).
      destruct (IH (S idx) st1) as (out & Ho & Hlen & Hdone & Hcm).
      exists (e :: out). rewrite Ho, He, <- app_assoc. simpl.
      split; [done|]. split; [lia|]. split; [|by auto].
      intros Hd. by rewrite Hdone.
    + apply step_aborted in Hs as ->. exists []. simpl.
      rewrite app_nil_r. split; [done|]. split; [lia|]. by split.
Qed.

Lemma loop_completed_length dry idx rows (st st' : PassState FS) :
  loop dry idx rows st = Completed st' →
  length (log st') = (length (log st) + length rows)%nat.
Proof.
  intros Hl. destruct (loop_log dry idx rows st) as (out & Ho & _ & Hd & _).
  rewrite Hl in Ho, Hd. simpl in *. rewrite Ho, length_app, Hd; done.
Qed.

(** The entry of the row at position [length pre]. *)
Lemma loop_entry dry idx pre row post (st0 st st1 : PassState FS) e :
  loop dry idx pre st0 = Completed st →
  step dry (idx + length pre) row st = Completed st1 →
  log st1 = log st ++ [e] →
  log (run_state (loop dry idx (pre ++ row :: post) st0))
    !! (length (log st0) + length pre)%nat = Some e.
Proof.
  intros Hpre Hrow He. rewrite loop_app, Hpre. simpl. rewrite Hrow.
  destruct (loop_log dry (S (idx + length pre)) post st1) as (out & -> & _).
  rewrite He, <- app_assoc. simpl.
  rewrite <- (loop_completed_length _ _ _ _ _ Hpre).
  by rewrite lookup_app_r, Nat.sub_diag.
Qed.

End PassFacts.

Lemma pass_unfold {FS : Type} `{!OS FS} ext mode delimiter dry rows
    (fs : FS) files :
  pass ext mode delimiter dry rows fs files
  = rename_loop ext mode delimiter dry 0 rows (initial_state fs files).
Proof. done. Qed.

(** ** Claims on the execution pass *)

Lemma build_files_map_lookup files k p :
  build_files_map files !! k = Some p → k = OsPath.basename p ∧ p ∈ files.
Proof.
  unfold build_files_map.
  assert (∀ m : gmap string string,
    (∀ k p, m !! k = Some p → k = OsPath.basename p ∧ p ∈ files) →
    ∀ l, l ⊆ files →
    ∀ k p, foldl (λ m p, <[OsPath.basename p := p]> m) m l !! k = Some p →
           k = OsPath.basename p ∧ p ∈ files) as Hgen.
  { intros m Hm l. revert m Hm.
    induction l as [|q l IH]; intros m Hm Hl k' p'; simpl; [by apply Hm|].
    apply IH; [|intros x Hx; apply Hl, elem_of_cons; by right].
    intros k1 p1. rewrite lookup_insert. case_decide; [|by apply Hm].
    intros [= <-]. split; [done|]. apply Hl, elem_of_cons. by left. }
  apply (Hgen ∅); [by intros ?? ?%lookup_empty_Some | done].
Qed.

Section PassClaims.
Context {FS : Type} `{!OS FS}.
Variables (ext mode : string) (delimiter : option string).

#[local] Abbreviation step := (process_row ext mode delimiter).
#[local] Abbreviation loop := (rename_loop ext mode delimiter).
#[local] Abbreviation pass := (pass ext mode delimiter).
#[local] Abbreviation new_name_of := (new_name_of ext mode delimiter).
#[local] Abbreviation new_path_of := (new_path_of ext mode delimiter).

(** The class of the row at position [length pre] of a pass. *)
Lemma pass_row dry pre row post (fs : FS) files st st1 e :
  pass dry pre fs files = Completed st →
  step dry (length pre) row st = Completed st1 →
  log st1 = log st ++ [e] →
  classes (run_state (pass dry (pre ++ row :: post) fs files)) !! length pre
  = Some (classify e).
Proof.
  intros Hpre Hrow He. unfold classes. rewrite list_lookup_fmap.
  rewrite ?pass_unfold in *.
  pose proof (loop_entry ext mode delimiter dry 0 pre row post
                _ st st1 e Hpre Hrow He) as Hentry.
  simpl in Hentry. by rewrite Hentry.
Qed.

Lemma truthy_true (s : string) : PyStr.truthy s = true ↔ s ≠ "".
Proof. by destruct s. Qed.


Lemma step_keys files dry idx row (st st1 : PassState FS) :
  keys_accounted files st →
  step dry idx row st = Completed st1 →
  keys_accounted files st1.
Proof.
  intros Hk Hs k. open_row; intros Hin;
    try (destruct (Hk k Hin) as [?|(o & notes & ?)];
         [by left | right; exists o, notes; apply elem_of_app; by left]).
  all: rewrite lookup_insert in Hin; case_decide as Hd;
    [ subst k; right; do 2 eexists; apply elem_of_app; right;
      by apply list_elem_of_singleton
    | rewrite lookup_delete in Hin; case_decide; [by destruct Hin|];
      destruct (Hk k Hin) as [?|(o & notes & ?)];
      [by left | right; exists o, notes; apply elem_of_app; by left] ].
Qed.

Lemma loop_keys files dry idx rows (st : PassState FS) :
  keys_accounted files st →
  keys_accounted files (run_state (loop dry idx rows st)).
Proof.
  revert idx st. induction rows as [|row rows IH]; intros idx st Hk; [done|].
  simpl. destruct (step dry idx row st) as [st1|st1] eqn:Hs.
  - eapply IH, step_keys; eauto.
  - by apply step_aborted in Hs as ->.
Qed.

Lemma initial_keys (fs : FS) files :
  keys_accounted files (initial_state fs files).
Proof.
  intros k [p Hp]. left. simpl in Hp.
  apply build_files_map_lookup in Hp as [-> Hp].
  by apply list_elem_of_fmap_2.
Qed.

(** C4, as the code has it.  A row with an empty key is logged as "Empty
    Current_Filename" and counted as skipped, wherever it stands and
    whatever its other cells hold.  A row whose key is neither a listed
    base name nor the new name of a rename logged earlier in the same pass
    is logged as "File not found" and counted as skipped.  Neither touches
    the disk or [files_map]. *)
Theorem unmatched_rows_are_skipped dry pre row post (fs : FS) files st :
  pass dry pre fs files = Completed st →
  let final := run_state (pass dry (pre ++ row :: post) fs files) in
  (key_of row = "" →
   step dry (length pre) row st
     = Completed (mkPass (disk st) (files_map st)
         (log st ++ [LogEmptyKey (S (length pre))])
         (renamed_count st) (error_count st) (S (skipped_count st)))
   ∧ classes final !! length pre = Some SkipEmptyKey)
  ∧ (key_of row ≠ "" →
     key_of row ∉ (OsPath.basename <$> files) →
     (∀ o notes, LogRenamed o (key_of row) notes ∉ log st) →
     step dry (length pre) row st
       = Completed (mkPass (disk st) (files_map st)
           (log st ++ [LogNotFound (S (length pre)) (key_of row)])
           (renamed_count st) (error_count st) (S (skipped_count st)))
     ∧ classes final !! length pre = Some SkipNotFound).
Proof.
  intros Hpre final. subst final. split.
  - intros Hkey.
    assert (step dry (length pre) row st
      = Completed (mkPass (disk st) (files_map st)
         (log st ++ [LogEmptyKey (S (length pre))])
         (renamed_count st) (error_count st) (S (skipped_count st))))
      as Hstep.
    { unfold process_row. fold (key_of row). by rewrite Hkey. }
    split; [done|]. by rewrite (pass_row _ _ _ _ _ _ _ _ _ Hpre Hstep eq_refl).
  - intros Hkey Hlist Hlog.
    assert (files_map st !! key_of row = None) as Hnone.
    { apply eq_None_not_Some. intros Hsome.
      pose proof (loop_keys files dry 0 pre _ (initial_keys fs files))
        as Hk.
      rewrite pass_unfold in Hpre. rewrite Hpre in Hk.
      destruct (Hk _ Hsome) as [?|(o & notes & ?)]; [done|].
      by eapply Hlog. }
    assert (step dry (length pre) row st
      = Completed (mkPass (disk st) (files_map st)
           (log st ++ [LogNotFound (S (length pre)) (key_of row)])
           (renamed_count st) (error_count st) (S (skipped_count st))))
      as Hstep.
    { unfold process_row. fold (key_of row).
      apply truthy_true in Hkey. rewrite Hkey. simpl. by rewrite Hnone. }
    split; [done|]. by rewrite (pass_row _ _ _ _ _ _ _ _ _ Hpre Hstep eq_refl).
Qed.

(** The counters of a pass that handled every row. *)
Lemma pass_counters dry rows (fs : FS) files st :
  pass dry rows fs files = Completed st →
  counters_match_log st ∧ length (log st) = length rows.
Proof.
  intros Hp. rewrite pass_unfold in Hp.
  destruct (loop_log ext mode delimiter dry 0 rows (initial_state fs files))
    as (out & Ho & _ & Hd & Hc).
  rewrite Hp in Ho, Hd, Hc. simpl in *. subst.
  split; [by apply Hc|by apply Hd].
Qed.


(** A dry run never calls [os.rename]. *)
Lemma step_dry_disk idx row (st st1 : PassState FS) :
  step true idx row st = Completed st1 → disk st1 = disk st.
Proof. intros. by open_row. Qed.

Lemma loop_dry_disk idx rows (st : PassState FS) :
  disk (run_state (loop true idx rows st)) = disk st.
Proof.
  revert idx st. induction rows as [|row rows IH]; intros idx st; [done|].
  simpl. destruct (step true idx row st) as [st1|st1] eqn:Hs.
  - rewrite IH. by eapply step_dry_disk.
  - by apply step_aborted in Hs as ->.
Qed.

(** One row, dry against live.  Either both runs do the same, and the row
    is not logged as renamed; or the dry run logs it as renamed and the live
    run, which calls [os.rename], logs it as renamed or as failed. *)
Lemma step_dry_vs_live idx row (st : PassState FS) :
  (step false idx row st = step true idx row st
   ∧ ∀ st1 e, step true idx row st = Completed st1 →
       log st1 = log st ++ [e] → classify e ≠ Renamed)
  ∨ (∃ st1 st2 e1 e2,
       step true idx row st = Completed st1
       ∧ log st1 = log st ++ [e1] ∧ classify e1 = Renamed
       ∧ step false idx row st = Completed st2
       ∧ log st2 = log st ++ [e2]
       ∧ (classify e2 = Renamed ∨ classify e2 = RenameError)).
Proof.
  unfold process_row.
  destruct (negb (PyStr.truthy _)).
  { left. split; [done|]. intros st1 e [= <-] Hl.
    apply app_inv_head in Hl as [= <-]. done. }
  destruct (files_map st !! _) as [old_path|]; last first.
  { left. split; [done|]. intros st1 e [= <-] Hl.
    apply app_inv_head in Hl as [= <-]. done. }
  case_decide.
  { left. split; [done|]. intros st1 e [= <-] Hl.
    apply app_inv_head in Hl as [= <-]. done. }
  destruct (target_taken _ _ _) as [[]|].
  - left. split; [done|]. intros st1 e [= <-] Hl.
    apply app_inv_head in Hl as [= <-]. done.
  - right. unfold try_rename.
    destruct (os_rename _ _ _); do 4 eexists; simpl;
      (split; [done|]); (split; [done|]); (split; [done|]);
      (split; [done|]); (split; [done|]); auto.
  - left. split; [done|]. by intros st1 e [=].
Qed.

(** The loop, dry against live, on the entries each run adds to the log. *)
Lemma loop_dry_vs_live rows : ∀ idx (st : PassState FS) n outD outL,
  log (run_state (loop true idx rows st)) = log st ++ outD →
  log (run_state (loop false idx rows st)) = log st ++ outL →
  Renamed ∉ classify <$> take n outD →
  take n outL = take n outD
  ∧ ((classify <$> outD) !! n = Some Renamed →
     (classify <$> outL) !! n = Some Renamed
     ∨ (classify <$> outL) !! n = Some RenameError)
  ∧ ((classify <$> outD) !! n ≠ Some Renamed → outL !! n = outD !! n).
Proof.
  induction rows as [|row rows IH]; intros idx st n outD outL HD HL Hn.
  { simpl in HD, HL. rewrite <- (app_nil_r (log st)) in HD at 1.
    rewrite <- (app_nil_r (log st)) in HL at 1.
    apply app_inv_head in HD as <-. apply app_inv_head in HL as <-.
    by rewrite !take_nil. }
  simpl in HD, HL.
  destruct (step_dry_vs_live idx row st)
    as [[Heq Hnot]|(st1 & st2 & e1 & e2 & HsD & HlD & Hc1 & HsL & HlL & Hc2)].
  - rewrite Heq in HL.
    destruct (step true idx row st) as [st1|st1] eqn:Hs.
    + destruct (step_completed _ _ _ _ _ _ _ _ Hs) as (e & He & _).
      specialize (Hnot st1 e eq_refl He).
      destruct (loop_log ext mode delimiter true (S idx) rows st1)
        as (oD & HoD & _).
      destruct (loop_log ext mode delimiter false (S idx) rows st1)
        as (oL & HoL & _).
      rewrite HoD, He, <- app_assoc in HD. apply app_inv_head in HD as <-.
      rewrite HoL, He, <- app_assoc in HL. apply app_inv_head in HL as <-.
      destruct n as [|n]; simpl.
      * split; [done|]. split; [|done]. by intros [= ?].
      * simpl in Hn. rewrite not_elem_of_cons in Hn. destruct Hn as [_ Hn].
        destruct (IH (S idx) st1 n oD oL HoD HoL Hn) as (Ht & Hr & Hs').
        split; [by rewrite Ht|]. by split.
    + apply step_aborted in Hs as ->. simpl in HD, HL.
      rewrite <- (app_nil_r (log st)) in HD at 1.
      rewrite <- (app_nil_r (log st)) in HL at 1.
      apply app_inv_head in HD as <-. apply app_inv_head in HL as <-.
      by rewrite !take_nil.
  - rewrite HsD in HD. rewrite HsL in HL.
    destruct (loop_log ext mode delimiter true (S idx) rows st1)
      as (oD & HoD & _).
    destruct (loop_log ext mode delimiter false (S idx) rows st2)
      as (oL & HoL & _).
    rewrite HoD, HlD, <- app_assoc in HD. apply app_inv_head in HD as <-.
    rewrite HoL, HlL, <- app_assoc in HL. apply app_inv_head in HL as <-.
    destruct n as [|n]; simpl.
    + split; [done|]. split; [|by rewrite Hc1].
      intros _. destruct Hc2 as [->| ->]; auto.
    + simpl in Hn. rewrite Hc1 in Hn. exfalso. apply Hn. by left.
Qed.

(** C1, as the code has it.  A dry run leaves the disk as it was when the
    loop started, and its [renamed_count] is the number of rows it logged as
    renamed.  As long as the dry run has logged no row as renamed, the live
    run has written the same entries; at the first row the dry run logs as
    renamed, the live run logs it as renamed or, when [os.rename] raises,
    as failed; a row the dry run does not log as renamed there gets the
    same entry in both. *)
Theorem dry_run_agrees_until_first_rename rows (fs : FS) files n :
  let dry := run_state (pass true rows fs files) in
  let live := run_state (pass false rows fs files) in
  Renamed ∉ take n (classes dry) →
  disk dry = fs
  ∧ renamed_count dry = tallied InRenamed (log dry)
  ∧ take n (log live) = take n (log dry)
  ∧ (classes dry !! n = Some Renamed →
     classes live !! n = Some Renamed ∨ classes live !! n = Some RenameError)
  ∧ (classes dry !! n ≠ Some Renamed → log live !! n = log dry !! n).
Proof.
  intros dry live Hn. subst dry live. rewrite ?pass_unfold in *. unfold classes in *.
  split; [by rewrite loop_dry_disk|]. split.
  { destruct (loop_log ext mode delimiter true 0 rows (initial_state fs files))
      as (out & _ & _ & _ & Hc).
    by apply Hc. }
  rewrite <- fmap_take in Hn.
  by apply (loop_dry_vs_live rows 0 (initial_state fs files) n).
Qed.

End PassClaims.

(** ** The whole of [rename_files_from_excel] *)

Section ExecuteClaims.
Context {FS : Type} `{!OS FS}.


(** C8, as the code has it.  A dry run that opens the log file and handles
    every row returns the path of the log and leaves in it the header with
    the run parameters, one entry for each row and the summary of the
    counters; no backup is made, whatever the backup check box says.  The
    header has no field that tells a dry run from a live one: a live run
    without backup on the same input opens the same file and writes the
    same header. *)
Theorem log_written_in_dry_run backup clock df files (fs fs2 : FS)
    excel_path target_folder ext mode delimiter st :
  let log_path := log_path_of clock target_folder in
  let header :=
    mkHeader (header_stamp clock) excel_path target_folder mode delimiter
             ext None in
  open_w fs log_path = Some fs2 →
  pass ext mode delimiter true df fs2 files = Completed st →
  rename_files_from_excel (mkConfig backup true) clock df files fs
    excel_path target_folder ext mode delimiter
  = mkOutcome (disk st) (Some log_path)
      (Some (log_path,
             mkLogFile header (log st)
               (Some (mkSummary (renamed_count st) (error_count st)
                        (skipped_count st)
                        (renamed_count st + error_count st
                         + skipped_count st)))))
  ∧ length (log st) = length df
  ∧ ∃ lf,
      out_log (rename_files_from_excel (mkConfig false false) clock df files
                 fs excel_path target_folder ext mode delimiter)
      = Some (log_path, lf)
      ∧ lf_header lf = header.
Proof.
  intros log_path header Hopen Hpass.
  unfold rename_files_from_excel. simpl.
  rewrite andb_false_r. fold log_path. rewrite Hopen.
  rewrite pass_unfold in Hpass. rewrite Hpass.
  split; [done|]. split.
  { by apply (pass_counters ext mode delimiter true df fs2 files). }
  destruct (rename_loop ext mode delimiter false 0 df
              (initial_state fs2 files)); by eexists.
Qed.

End ExecuteClaims.

(** ** The preview *)

Section PreviewFacts.
Context {FS : Type} `{!OS FS}.
Variables (ext mode : string) (delimiter : option string).
Variables (fs : FS) (fm : gmap string string).

#[local] Abbreviation prow := (preview_row ext mode delimiter fs fm).
#[local] Abbreviation ploop := (preview_loop ext mode delimiter fs fm).
#[local] Abbreviation new_name_of := (new_name_of ext mode delimiter).
#[local] Abbreviation new_path_of := (new_path_of ext mode delimiter).

(** A row of the preview writes one entry and forgets no proposed name. *)
Lemma preview_row_text idx row st :
  ∃ e, preview_text (prow idx row st) = preview_text st ++ [e]
    ∧ proposed_new_names st ⊆ proposed_new_names (prow idx row st).
Proof.
  unfold preview_row. repeat case_match; eexists; simpl;
    (split; [done|]); set_solver.
Qed.

Lemma preview_loop_app idx pre post st :
  ploop idx (pre ++ post) st
  = ploop (idx + length pre) post (ploop idx pre st).
Proof.
  revert idx st. induction pre as [|row pre IH]; intros idx st; simpl.
  - by rewrite Nat.add_0_r.
  - rewrite IH. by replace (S idx + length pre)%nat
                      with (idx + S (length pre))%nat by lia.
Qed.

Lemma preview_loop_text idx rows st :
  ∃ out, preview_text (ploop idx rows st) = preview_text st ++ out
    ∧ length out = length rows
    ∧ proposed_new_names st ⊆ proposed_new_names (ploop idx rows st).
Proof.
  revert idx st. induction rows as [|row rows IH]; intros idx st; simpl.
  - exists []. by rewrite app_nil_r.
  - destruct (preview_row_text idx row st) as (e & He & Hsub).
    destruct (IH (S idx) (prow idx row st)) as (out & Ho & Hlen & Hsub').
    exists (e :: out). rewrite Ho, He, <- app_assoc. simpl.
    split; [done|]. split; [by rewrite Hlen|]. set_solver.
Qed.

(** A matched row whose new name is free, on the disk and among the names
    proposed so far, is shown as a change and proposes its new name. *)
Lemma preview_row_change idx row st old_path :
  matched fm row old_path →
  key_of row ≠ new_name_of row →
  new_name_of row ∉ proposed_new_names st →
  os_path_exists fs (new_path_of row old_path) = false →
  prow idx row st
  = mkPreview (S (changes_count st)) (missing_files st) (collisions st)
      ({[new_name_of row]} ∪ proposed_new_names st)
      (preview_text st
       ++ [PvChange (S idx) (key_of row) (new_name_of row)]).
Proof.
  intros [Hkey Hfm] Hne Hfree Hdisk. apply truthy_true in Hkey.
  unfold preview_row. fold (key_of row). rewrite Hkey. simpl. rewrite Hfm.
  fold (new_name_of row). rewrite decide_True by done.
  fold (new_path_of row old_path).
  by rewrite bool_decide_eq_false_2, Hdisk.
Qed.

(** A matched row whose new name was proposed by an earlier row is shown as
    a collision. *)
Lemma preview_row_collision idx row st old_path :
  matched fm row old_path →
  key_of row ≠ new_name_of row →
  new_name_of row ∈ proposed_new_names st →
  prow idx row st
  = mkPreview (S (changes_count st)) (missing_files st) (S (collisions st))
      (proposed_new_names st)
      (preview_text st
       ++ [PvCollision (S idx) (key_of row) (new_name_of row)]).
Proof.
  intros [Hkey Hfm] Hne Hin. apply truthy_true in Hkey.
  unfold preview_row. fold (key_of row). rewrite Hkey. simpl. rewrite Hfm.
  fold (new_name_of row). rewrite decide_True by done.
  by rewrite bool_decide_eq_true_2.
Qed.

(** The first row to propose a name is shown as a change; a later row that
    proposes the same name is shown as a collision. *)
Lemma preview_first_claim_wins pre row1 mid row2 post p1 p2 :
  let st := ploop 0 pre preview_start in
  let final := ploop 0 (pre ++ row1 :: mid ++ row2 :: post) preview_start in
  matched fm row1 p1 →
  matched fm row2 p2 →
  new_name_of row2 = new_name_of row1 →
  key_of row1 ≠ new_name_of row1 →
  key_of row2 ≠ new_name_of row1 →
  new_name_of row1 ∉ proposed_new_names st →
  os_path_exists fs (new_path_of row1 p1) = false →
  preview_classes final !! length pre = Some Renamed
  ∧ preview_classes final !! (length pre + S (length mid))%nat
    = Some Collision.
Proof.
  intros st final Hm1 Hm2 Hsame Hne1 Hne2 Hfree Hdisk. subst final.
  destruct (preview_loop_text 0 pre preview_start) as (o0 & Ho0 & Hl0 & _).
  fold st in Ho0. simpl in Ho0.
  rewrite preview_loop_app. fold st. simpl.
  rewrite (preview_row_change _ _ _ _ Hm1 Hne1 Hfree Hdisk).
  rewrite preview_loop_app. simpl.
  match goal with |- context [ploop ?i mid ?s] =>
    destruct (preview_loop_text i mid s) as (om & Hom & Hlm & Hsub);
    set (stb := ploop i mid s) in *
  end.
  simpl in Hom, Hsub.
  assert (new_name_of row2 ∈ proposed_new_names stb) as Hin.
  { rewrite Hsame. apply Hsub. set_solver. }
  rewrite <- Hsame in Hne2.
  rewrite (preview_row_collision _ _ _ _ Hm2 Hne2 Hin).
  match goal with |- context [ploop ?i post ?s] =>
    destruct (preview_loop_text i post s) as (op & Hop & _)
  end.
  simpl in Hop. unfold preview_classes.
  rewrite Hop, Hom, Ho0, !list_lookup_fmap, <- !app_assoc. split.
  - rewrite lookup_app_r by lia. by rewrite Hl0, Nat.sub_diag.
  - rewrite lookup_app_r by lia.
    rewrite Hl0. replace (length pre + S (length mid) - length pre)%nat
      with (S (length mid)) by lia.
    simpl. rewrite lookup_app_r by lia. by rewrite Hlm, Nat.sub_diag.
Qed.

End PreviewFacts.

(** ** Two rows with one target *)

Lemma disk_exists_Some d p i : inodes d !! p = Some i → disk_exists d p = true.
Proof. intros H. unfold disk_exists. rewrite H. by apply bool_decide_eq_true_2. Qed.

Lemma disk_samefile_Some d a b i j :
  inodes d !! a = Some i → inodes d !! b = Some j →
  disk_samefile d a b = Some (bool_decide (i = j)).
Proof. intros Ha Hb. unfold disk_samefile. by rewrite Ha, Hb. Qed.

Section SameTarget.
Variables (ext mode : string) (delimiter : option string).

#[local] Abbreviation step := (process_row ext mode delimiter).
#[local] Abbreviation pass := (pass ext mode delimiter).
#[local] Abbreviation new_name_of := (new_name_of ext mode delimiter).
#[local] Abbreviation new_path_of := (new_path_of ext mode delimiter).

(** On the disk of this file: when a live pass has renamed the file of one
    row, the next row, matched to another file of the same directory and
    given the same new name, finds the target on the disk and is logged as
    "Target exists"; nothing is renamed for it. *)
Lemma live_second_claim_collides pre row1 row2 post (d : Disk) files
    st st1 p1 p2 i j :
  pass false pre d files = Completed st →
  matched (files_map st) row1 p1 →
  matched (files_map st) row2 p2 →
  key_of row1 ≠ key_of row2 →
  new_name_of row2 = new_name_of row1 →
  key_of row1 ≠ new_name_of row1 →
  key_of row2 ≠ new_name_of row1 →
  OsPath.dirname p2 = OsPath.dirname p1 →
  inodes (disk st) !! p1 = Some i →
  inodes (disk st) !! p2 = Some j →
  i ≠ j →
  step false (length pre) row1 st = Completed st1 →
  renamed_count st1 = S (renamed_count st) →
  step false (S (length pre)) row2 st1
  = Completed (mkPass (disk st1) (files_map st1)
      (log st1 ++ [LogTargetExists (key_of row2) (new_name_of row1)])
      (renamed_count st1) (S (error_count st1)) (skipped_count st1))
  ∧ classes (run_state (pass false (pre ++ row1 :: row2 :: post) d files))
      !! S (length pre) = Some Collision.
Proof.
  intros Hpre [Hk1 Hf1] [Hk2 Hf2] Hkeys Hsame Hne1 Hne2 Hdir Hi Hj Hij
         Hstep1 Hcount.
  apply truthy_true in Hk1, Hk2.
  (* the first row went through [os.rename] *)
  unfold process_row in Hstep1. fold (key_of row1) in Hstep1.
  rewrite Hk1 in Hstep1. simpl in Hstep1. rewrite Hf1 in Hstep1.
  fold (new_name_of row1) in Hstep1.
  rewrite decide_False in Hstep1 by done.
  fold (new_path_of row1 p1) in Hstep1.
  set (np := new_path_of row1 p1) in *.
  destruct (target_taken (disk st) p1 np) as [[]|] eqn:Htaken;
    [injection Hstep1 as <-; simpl in Hcount; lia | | done].
  unfold try_rename in Hstep1.
  destruct (os_rename (disk st) p1 np) as [msg|d'] eqn:Hren;
    [injection Hstep1 as <-; simpl in Hcount; lia |].
  injection Hstep1 as <-. simpl.
  (* the target is not the file of the second row *)
  assert (p2 ≠ np) as Hp2.
  { intros ->. unfold target_taken in Htaken. simpl in Htaken.
    rewrite (disk_exists_Some _ _ _ Hj) in Htaken.
    rewrite (disk_samefile_Some _ _ _ _ _ Hi Hj) in Htaken.
    rewrite bool_decide_eq_false_2 in Htaken by done. done. }
  assert (p2 ≠ p1) as Hp21 by (intros ->; congruence).
  (* the disk after the rename *)
  assert (inodes d' !! np = Some i ∧ inodes d' !! p2 = Some j) as [Hnp Hp2'].
  { simpl in Hren. unfold disk_rename in Hren.
    destruct (bool_decide (p1 ∈ locked (disk st))); [done|].
    rewrite Hi in Hren. case_bool_decide as Hb; injection Hren as <-.
    - done.
    - simpl. rewrite lookup_insert_eq.
      by rewrite lookup_insert_ne, lookup_delete_ne. }
  assert (∀ idx, step false idx row2
            (mkPass d' (<[new_name_of row1 := np]>
                          (delete (key_of row1) (files_map st)))
               (log st ++ [LogRenamed (key_of row1) (new_name_of row1)
                             (PyStr.strip (row_get row1 "Notes"))])
               (S (renamed_count st)) (error_count st) (skipped_count st))
          = Completed (mkPass d'
              (<[new_name_of row1 := np]>
                 (delete (key_of row1) (files_map st)))
              ((log st ++ [LogRenamed (key_of row1) (new_name_of row1)
                             (PyStr.strip (row_get row1 "Notes"))])
               ++ [LogTargetExists (key_of row2) (new_name_of row1)])
              (S (renamed_count st)) (S (error_count st))
              (skipped_count st))) as Hstep2.
  { intros idx. unfold process_row. fold (key_of row2). rewrite Hk2. simpl.
    rewrite lookup_insert_ne, lookup_delete_ne, Hf2 by done.
    fold (new_name_of row2). rewrite Hsame.
    rewrite decide_False by done. rewrite Hdir.
    fold (new_path_of row1 p1). fold np.
    unfold target_taken. simpl.
    rewrite (disk_exists_Some _ _ _ Hnp).
    rewrite (disk_samefile_Some _ _ _ _ _ Hp2' Hnp).
    by rewrite bool_decide_eq_false_2 by done. }
  split; [by apply Hstep2|].
  rewrite ?pass_unfold in *. unfold classes in *.
  rewrite list_lookup_fmap.
  replace (pre ++ row1 :: row2 :: post)
    with ((pre ++ [row1]) ++ row2 :: post) by by rewrite <- app_assoc.
  match type of Hstep2 with ∀ idx, step _ _ _ ?s = _ =>
    assert (rename_loop ext mode delimiter false 0 (pre ++ [row1])
              (initial_state d files) = Completed s) as Hpre1
  end.
  { rewrite loop_app, Hpre. simpl.
    unfold process_row. fold (key_of row1). rewrite Hk1. simpl.
    rewrite Hf1. fold (new_name_of row1). rewrite decide_False by done.
    fold (new_path_of row1 p1). fold np. rewrite Htaken.
    unfold try_rename. by rewrite Hren. }
  pose proof (loop_entry ext mode delimiter false 0 (pre ++ [row1]) row2
                post _ _ _ _ Hpre1 (Hstep2 _) eq_refl) as Hentry.
  simpl in Hentry. rewrite length_app in Hentry. simpl in Hentry.
  replace (length pre + 1)%nat with (S (length pre)) in Hentry by lia.
  by rewrite Hentry.
Qed.

End SameTarget.

(** ** A live pass on a disk in order handles every row *)

Lemma in_order_same (st st' : PassState Disk) :
  disk st' = disk st → files_map st' = files_map st →
  in_order st → in_order st'.
Proof. unfold in_order. by intros -> ->. Qed.

(** [os.rename] returned without moving anything: the target is the file
    itself, under its own path. *)
Lemma in_order_renamed_in_place (st : PassState Disk) key n p1 l r e k :
  in_order st →
  files_map st !! key = Some p1 →
  in_order (mkPass (disk st) (<[n := p1]> (delete key (files_map st)))
                   l r e k).
Proof.
  intros (Hlisted & Hkeys & Hlinks) Hf. unfold in_order. simpl.
  split; [|split; [|done]].
  - intros k0 p. rewrite lookup_insert. case_decide.
    + intros [= <-]. eauto.
    + rewrite lookup_delete. case_decide; [done|]. eauto.
  - intros k1 k2 p. rewrite !lookup_insert, !lookup_delete.
    repeat case_decide; simplify_eq; try done; intros Ha Hb; simplify_eq;
      solve [eauto | exfalso; eauto].
Qed.

(** [os.rename] moved the file to a path that was free. *)
Lemma in_order_renamed (st : PassState Disk) key n p1 np i l r e k :
  in_order st →
  files_map st !! key = Some p1 →
  inodes (disk st) !! p1 = Some i →
  inodes (disk st) !! np = None →
  in_order (mkPass (mkDisk (<[np := i]> (delete p1 (inodes (disk st))))
                      (locked (disk st)))
                   (<[n := np]> (delete key (files_map st))) l r e k).
Proof.
  intros (Hlisted & Hkeys & Hlinks) Hf Hi Hnp.
  unfold in_order, no_hard_links in *. simpl.
  assert (∀ k0, files_map st !! k0 ≠ Some np) as Hfree.
  { intros k0 Hk0. destruct (Hlisted _ _ Hk0) as [j Hj]. congruence. }
  split; [|split].
  - intros k0 p. rewrite lookup_insert. case_decide.
    + intros [= <-]. rewrite lookup_insert_eq. eauto.
    + rewrite lookup_delete. case_decide; [done|]. intros Hp.
      assert (p ≠ p1) by (intros ->; eauto).
      assert (p ≠ np) by (intros ->; by eapply Hfree).
      rewrite lookup_insert_ne, lookup_delete_ne by done. eauto.
  - intros k1 k2 p. rewrite !lookup_insert, !lookup_delete.
    repeat case_decide; simplify_eq; try done; intros Ha Hb; simplify_eq;
      solve [eauto | exfalso; eauto | exfalso; by eapply Hfree].
  - intros p q j. rewrite !lookup_insert, !lookup_delete.
    repeat case_decide; simplify_eq; try done; intros Ha Hb; simplify_eq;
      solve [eauto | exfalso; eauto].
Qed.

Section LivePass.
Variables (ext mode : string) (delimiter : option string).

Lemma step_live_in_order idx row (st : PassState Disk) :
  in_order st →
  ∃ st1, process_row ext mode delimiter false idx row st = Completed st1
       ∧ in_order st1.
Proof.
  intros Hin. pose proof Hin as (Hlisted & Hkeys & Hlinks).
  unfold process_row.
  destruct (negb (PyStr.truthy _));
    [eexists; split; [done|]; by eapply in_order_same|].
  destruct (files_map st !! _) as [p1|] eqn:Hf;
    [|eexists; split; [done|]; by eapply in_order_same].
  case_decide; [eexists; split; [done|]; by eapply in_order_same|].
  set (n := generate_new_name _ _ _ _ _) in *.
  set (np := OsPath.join _ n).
  destruct (Hlisted _ _ Hf) as [i Hi].
  unfold target_taken, try_rename. simpl. unfold disk_rename.
  destruct (inodes (disk st) !! np) as [j|] eqn:Hnp.
  - rewrite (disk_exists_Some _ _ _ Hnp).
    rewrite (disk_samefile_Some _ _ _ _ _ Hi Hnp). simpl.
    case_bool_decide as Hij; simpl;
      [|eexists; split; [done|]; by eapply in_order_same].
    subst j. assert (np = p1) as Hsame by eauto.
    destruct (bool_decide (p1 ∈ locked (disk st)));
      [eexists; split; [done|]; by eapply in_order_same|].
    rewrite Hi, bool_decide_eq_true_2 by done.
    eexists; split; [done|]. rewrite Hsame.
    by apply in_order_renamed_in_place.
  - assert (disk_exists (disk st) np = false) as ->.
    { unfold disk_exists. rewrite Hnp. apply bool_decide_eq_false_2.
      by intros [? ?]. }
    destruct (bool_decide (p1 ∈ locked (disk st)));
      [eexists; split; [done|]; by eapply in_order_same|].
    rewrite Hi, bool_decide_eq_false_2 by done.
    eexists; split; [done|]. by apply in_order_renamed.
Qed.

Lemma loop_live_in_order rows : ∀ idx (st : PassState Disk),
  in_order st →
  completed (rename_loop ext mode delimiter false idx rows st) = true.
Proof.
  induction rows as [|row rows IH]; intros idx st Hin; [done|]. simpl.
  destruct (step_live_in_order idx row st Hin) as (st1 & -> & Hin1).
  by apply IH.
Qed.


End LivePass.


(** * The claims on a folder with two files *)

(** C1: the claim as written fails.  Two rows give the files ["a.pdf"] and
    ["b.pdf"] the name ["c.pdf"].  The dry run reports two renamed rows, not
    none, and logs the second row as renamed, where the live run logs it as
    "Target exists". *)
Lemma dry_run_counts_and_differs :
  let rows := [mk_row "a.pdf" "" "c" ""; mk_row "b.pdf" "" "c" ""] in
  renamed_count (demo_pass true rows demo_disk demo_files) = 2%nat
  ∧ classes (demo_pass true rows demo_disk demo_files) = [Renamed; Renamed]
  ∧ classes (demo_pass false rows demo_disk demo_files)
    = [Renamed; Collision].
Proof. by vm_compute. Qed.

(** C1 on three rows: an empty key, then the two rows above. *)
Lemma dry_run_agrees_until_first_rename_witness :
  let rows := [mk_row "" "" "x" ""; mk_row "a.pdf" "" "c" "";
               mk_row "b.pdf" "" "c" ""] in
  let dry := demo_pass true rows demo_disk demo_files in
  let live := demo_pass false rows demo_disk demo_files in
  (Renamed ∉ take 1 (classes dry))
  ∧ disk dry = demo_disk
  ∧ renamed_count dry = tallied InRenamed (log dry)
  ∧ take 1 (log live) = take 1 (log dry)
  ∧ (classes dry !! 1%nat = Some Renamed →
     classes live !! 1%nat = Some Renamed
     ∨ classes live !! 1%nat = Some RenameError)
  ∧ (classes dry !! 1%nat ≠ Some Renamed →
     log live !! 1%nat = log dry !! 1%nat).
Proof.
  assert (Renamed ∉ take 1 (classes (demo_pass true
            [mk_row "" "" "x" ""; mk_row "a.pdf" "" "c" "";
             mk_row "b.pdf" "" "c" ""] demo_disk demo_files))) as Hfirst.
  { vm_compute. intros H. apply list_elem_of_singleton in H. discriminate. }
  split; [exact Hfirst|].
  exact (dry_run_agrees_until_first_rename ".pdf" "Replace" (Some "-")
           [mk_row "" "" "x" ""; mk_row "a.pdf" "" "c" "";
            mk_row "b.pdf" "" "c" ""] demo_disk demo_files 1 Hfirst).
Defined.




(** C4: the claim as written fails.  ["b.pdf"] is not a base name of the
    listing, yet the second row, whose key it is, is matched: the first row
    has renamed ["a.pdf"] to it.  The row is renamed in turn. *)
Lemma key_outside_listing_is_matched :
  let rows := [mk_row "a.pdf" "" "b" ""; mk_row "b.pdf" "" "c" ""] in
  let files := ["/d/a.pdf"] in
  let d := folder_of "/d" ["a.pdf"] in
  (OsPath.basename <$> files) = ["a.pdf"]
  ∧ log (demo_pass false rows d files)
    = [LogRenamed "a.pdf" "b.pdf" ""; LogRenamed "b.pdf" "c.pdf" ""]
  ∧ log (demo_pass true rows d files)
    = [LogRenamed "a.pdf" "b.pdf" ""; LogRenamed "b.pdf" "c.pdf" ""].
Proof. by vm_compute. Qed.

(** C4: after a rename, a key of blanks and a key in another case. *)
Lemma unmatched_rows_are_skipped_witness :
  let pre := [mk_row "a.pdf" "" "c" ""] in
  classes (demo_pass false (pre ++ [mk_row "  " "001" "x" "note"])
             demo_disk demo_files) !! 1%nat = Some SkipEmptyKey
  ∧ classes (demo_pass false (pre ++ [mk_row "A.pdf" "001" "x" ""])
               demo_disk demo_files) !! 1%nat = Some SkipNotFound.
Proof.
  split.
  - apply (unmatched_rows_are_skipped ".pdf" "Replace" (Some "-") false
             [mk_row "a.pdf" "" "c" ""] (mk_row "  " "001" "x" "note") []
             demo_disk demo_files
             (demo_pass false [mk_row "a.pdf" "" "c" ""] demo_disk
                demo_files)); by vm_compute.
  - apply (unmatched_rows_are_skipped ".pdf" "Replace" (Some "-") false
             [mk_row "a.pdf" "" "c" ""] (mk_row "A.pdf" "001" "x" "") []
             demo_disk demo_files
             (demo_pass false [mk_row "a.pdf" "" "c" ""] demo_disk
                demo_files)); [by vm_compute|by vm_compute| |].
    + vm_compute. intros Hin.
      repeat (apply elem_of_cons in Hin as [Hin|Hin]; [discriminate|]).
      by apply elem_of_nil in Hin.
    + intros o notes. vm_compute. intros Hin.
      apply list_elem_of_singleton in Hin. discriminate.
Defined.


(** C8: the claim as written fails.  With the backup off, the dry run and
    the live run of one row leave the same log file, word for word: nothing
    in it says that the first was a preview. *)
Lemma dry_log_equals_live_log :
  let run dry :=
    out_log (rename_files_from_excel (mkConfig false dry) demo_clock
               [mk_row "a.pdf" "001" "Report" "checked"] demo_files
               demo_disk "/d/index.xlsx" "/d" ".pdf" "Prefix" (Some "-")) in
  let file :=
    mkLogFile
      (mkHeader "2025-12-27 12:00:01" "/d/index.xlsx" "/d" "Prefix"
                (Some "-") ".pdf" None)
      [LogRenamed "a.pdf" "001-Report.pdf" "checked"]
      (Some (mkSummary 1 0 0 1)) in
  run true = Some ("/d/rename_log_20251227_120001.txt", file)
  ∧ run false = Some ("/d/rename_log_20251227_120001.txt", file).
Proof. by vm_compute. Qed.

(** C8: the log of a dry run of two rows, with the backup box ticked. *)
Lemma log_written_in_dry_run_witness :
  let rows := [mk_row "a.pdf" "001" "Report" "checked"; mk_row "" "" "" ""] in
  out_log (rename_files_from_excel (mkConfig true true) demo_clock rows
             demo_files demo_disk "/d/index.xlsx" "/d" ".pdf" "Prefix"
             (Some "-"))
  = Some ("/d/rename_log_20251227_120001.txt",
          mkLogFile
            (mkHeader "2025-12-27 12:00:01" "/d/index.xlsx" "/d" "Prefix"
                      (Some "-") ".pdf" None)
            [LogRenamed "a.pdf" "001-Report.pdf" "checked"; LogEmptyKey 2]
            (Some (mkSummary 1 0 1 2))).
Proof.
  pose proof (log_written_in_dry_run true demo_clock
    [mk_row "a.pdf" "001" "Report" "checked"; mk_row "" "" "" ""]
    demo_files demo_disk
    (default demo_disk
       (open_w demo_disk (log_path_of demo_clock "/d")))
    "/d/index.xlsx" "/d" ".pdf" "Prefix" (Some "-")
    (run_state (pass ".pdf" "Prefix" (Some "-") true
       [mk_row "a.pdf" "001" "Report" "checked"; mk_row "" "" "" ""]
       (default demo_disk
          (open_w demo_disk (log_path_of demo_clock "/d")))
       demo_files))) as Hlog.
  destruct Hlog as [Hout _]; [by vm_compute|by vm_compute|].
  cbv zeta. rewrite Hout. by vm_compute.
Defined.



(** A dry run can be left by an exception.  The first row renames
    ["a.pdf"] to ["c.pdf"] in [files_map] only; the second row is matched
    to ["/d/c.pdf"], which is not on the disk, and its target ["/d/b.pdf"]
    is: [os.path.samefile] raises.  The loop stops after one entry, no
    summary is written and the function returns [None].  The live run of
    the same rows handles all three. *)
Lemma dry_run_chain_aborts :
  let rows := [mk_row "a.pdf" "" "c" ""; mk_row "c.pdf" "" "b" "";
               mk_row "" "" "" ""] in
  let out :=
    rename_files_from_excel (mkConfig false true) demo_clock rows demo_files
      demo_disk "/d/index.xlsx" "/d" ".pdf" "Replace" (Some "-") in
  completed (pass ".pdf" "Replace" (Some "-") true rows demo_disk demo_files)
  = false
  ∧ log (demo_pass true rows demo_disk demo_files)
    = [LogRenamed "a.pdf" "c.pdf" ""]
  ∧ out_returned out = None
  ∧ (lf_summary ∘ snd <$> out_log out) = Some None
  ∧ log (demo_pass false rows demo_disk demo_files)
    = [LogRenamed "a.pdf" "c.pdf" ""; LogTargetExists "c.pdf" "b.pdf";
       LogEmptyKey 3].
Proof. by vm_compute. Qed.

(** * Further properties of the program *)

(** ** A pass loses no file *)

Lemma same_files_refl d : same_files d d.
Proof. by split. Qed.

Lemma same_files_trans d1 d2 d3 :
  same_files d1 d2 → same_files d2 d3 → same_files d1 d3.
Proof.
  intros [Hs1 Hi1] [Hs2 Hi2]. split; [congruence|].
  intros i. by rewrite Hi1, Hi2.
Qed.

(** [os.rename] behind the collision test: the target is free or is the
    file itself, so the file moves and nothing is replaced. *)
Lemma guarded_rename_same_files (d d' : Disk) a b :
  target_taken d a b = Some false →
  disk_rename d a b = inr d' →
  same_files d d'.
Proof.
  unfold target_taken, disk_rename. simpl. intros Htaken Hren.
  destruct (bool_decide (a ∈ locked d)); [done|].
  destruct (inodes d !! a) as [i|] eqn:Ha; [|done].
  case_bool_decide as Hb; injection Hren as <-; [apply same_files_refl|].
  assert (inodes d !! b = None) as Hfree.
  { destruct (inodes d !! b) as [j|] eqn:Hj; [|done]. exfalso.
    rewrite (disk_exists_Some _ _ _ Hj) in Htaken.
    rewrite (disk_samefile_Some _ _ _ _ _ Ha Hj) in Htaken.
    simpl in Htaken. case_bool_decide; [congruence|done]. }
  assert (a ≠ b) as Hab by (intros ->; congruence).
  split; simpl.
  - rewrite map_size_insert_None by by rewrite lookup_delete_ne.
    rewrite map_size_delete_Some by eauto.
    assert (size (inodes d) ≠ 0%nat); [|lia].
    apply map_size_non_empty_iff. intros He. by rewrite He in Ha.
  - intros i0. split; intros [p Hp].
    + destruct (decide (p = a)) as [->|Hpa].
      * exists b. rewrite lookup_insert_eq. congruence.
      * exists p. assert (b ≠ p) by (intros ->; congruence).
        by rewrite lookup_insert_ne, lookup_delete_ne.
    + rewrite lookup_insert in Hp. case_decide.
      * exists a. congruence.
      * rewrite lookup_delete in Hp. case_decide; [done|]. eauto.
Qed.

Section KeepsFiles.
Variables (ext mode : string) (delimiter : option string).

Lemma step_same_files dry idx row (st : PassState Disk) :
  same_files (disk st)
    (disk (run_state (process_row ext mode delimiter dry idx row st))).
Proof.
  unfold process_row.
  repeat (case_match; try apply same_files_refl).
  simpl. unfold try_rename. destruct dry; [apply same_files_refl|].
  destruct (os_rename _ _ _) as [msg|d'] eqn:Hren;
    [apply same_files_refl|].
  simpl. by eapply guarded_rename_same_files.
Qed.

Lemma loop_same_files dry rows : ∀ idx (st : PassState Disk),
  same_files (disk st)
    (disk (run_state (rename_loop ext mode delimiter dry idx rows st))).
Proof.
  induction rows as [|row rows IH]; intros idx st; [apply same_files_refl|].
  simpl. pose proof (step_same_files dry idx row st) as Hstep.
  destruct (process_row ext mode delimiter dry idx row st) as [st1|st1];
    [|done].
  eapply same_files_trans; [exact Hstep|apply IH].
Qed.


End KeepsFiles.

(** ** [files_map]: one entry for each base name, the last listed *)

Lemma build_files_map_snoc files p :
  build_files_map (files ++ [p])
  = <[OsPath.basename p := p]> (build_files_map files).
Proof. unfold build_files_map. by rewrite foldl_app. Qed.

(** The dict comprehension, read from the listing: a base name leads to the
    last listed path that has it, and to nothing when no listed path has
    it.  Of two listed files with one base name (in two subfolders of a
    recursive listing) only the later one can be matched by a row. *)
Theorem files_map_holds_last_listed files k p :
  build_files_map files !! k = Some p
  ↔ ∃ before after,
      files = before ++ p :: after
      ∧ OsPath.basename p = k
      ∧ ∀ q, q ∈ after → OsPath.basename q ≠ k.
Proof.
  split.
  - revert p. induction files as [|x files IH] using rev_ind; intros p.
    { unfold build_files_map. simpl. by rewrite lookup_empty. }
    rewrite build_files_map_snoc, lookup_insert. case_decide as Hx.
    + intros [= <-]. exists files, []. split; [done|]. split; [done|].
      by intros q ?%elem_of_nil.
    + intros (before & after & -> & Hk & Hafter)%IH.
      exists before, (after ++ [x]). split; [by rewrite <- app_assoc|].
      split; [done|]. intros q [Hq|Hq]%elem_of_app; [by apply Hafter|].
      apply list_elem_of_singleton in Hq as ->. done.
  - intros (before & after & -> & Hk & Hafter).
    induction after as [|x after IH] using rev_ind.
    + by rewrite build_files_map_snoc, Hk, lookup_insert_eq.
    + rewrite app_comm_cons, app_assoc, build_files_map_snoc.
      rewrite lookup_insert_ne.
      * apply IH. intros q Hq. apply Hafter, elem_of_app. by left.
      * apply Hafter, elem_of_app. right. by apply list_elem_of_singleton.
Qed.

(** ** Keys are stripped *)

Lemma list_of_rev_app s1 s2 :
  String.list_ascii_of_string (String.rev_app s1 s2)
  = rev (String.list_ascii_of_string s1) ++ String.list_ascii_of_string s2.
Proof.
  revert s2. induction s1 as [|c s1 IH]; intros s2; simpl; [done|].
  rewrite IH. simpl. by rewrite <- app_assoc.
Qed.

Lemma list_of_rev s :
  String.list_ascii_of_string (String.rev s)
  = rev (String.list_ascii_of_string s).
Proof. unfold String.rev. by rewrite list_of_rev_app, app_nil_r. Qed.

Lemma list_of_lstrip s :
  String.list_ascii_of_string (PyStr.lstrip s)
  = drop_space (String.list_ascii_of_string s).
Proof.
  induction s as [|c s IH]; simpl; [done|]. by destruct (PyStr.isspace c).
Qed.

Lemma list_of_strip s :
  String.list_ascii_of_string (PyStr.strip s)
  = rev (drop_space (rev (drop_space (String.list_ascii_of_string s)))).
Proof.
  unfold PyStr.strip, PyStr.rstrip.
  by rewrite list_of_rev, list_of_lstrip, list_of_rev, list_of_lstrip.
Qed.

Lemma drop_space_idemp l : drop_space (drop_space l) = drop_space l.
Proof.
  induction l as [|c l IH]; simpl; [done|].
  destruct (PyStr.isspace c) eqn:Hc; [done|]. simpl. by rewrite Hc.
Qed.

(** What [drop_space] leaves is the end of the list, after blanks only. *)
Lemma drop_space_suffix l : ∃ ws, l = ws ++ drop_space l.
Proof.
  induction l as [|c l [ws IH]]; simpl; [by exists []|].
  destruct (PyStr.isspace c); [|by exists []].
  exists (c :: ws). simpl. by rewrite <- IH.
Qed.

(** A beginning of a list without leading blanks has none either. *)
Lemma drop_space_prefix_fixed t r :
  drop_space (t ++ r) = t ++ r → drop_space t = t.
Proof.
  destruct t as [|c t]; simpl; [done|].
  destruct (PyStr.isspace c); [|done].
  intros Heq. destruct (drop_space_suffix (t ++ r)) as [ws Hws].
  rewrite Heq in Hws. apply (f_equal length) in Hws.
  rewrite !length_app in Hws. simpl in Hws. rewrite length_app in Hws. lia.
Qed.

Lemma strip_idempotent s : PyStr.strip (PyStr.strip s) = PyStr.strip s.
Proof.
  apply list_ascii_inj. rewrite (list_of_strip (PyStr.strip s)).
  rewrite list_of_strip.
  set (u := drop_space (String.list_ascii_of_string s)).
  assert (drop_space u = u) as Hu by apply drop_space_idemp.
  destruct (drop_space_suffix (rev u)) as [ws Hws].
  set (v := drop_space (rev u)) in *.
  assert (drop_space (rev v) = rev v) as Hv.
  { apply (drop_space_prefix_fixed _ (rev ws)).
    rewrite <- rev_app_distr, <- Hws, rev_involutive. done. }
  rewrite Hv, rev_involutive. subst v. by rewrite drop_space_idemp.
Qed.

Section StrippedKeys.
Context {FS : Type} `{!OS FS}.
Variables (ext mode : string) (delimiter : option string).

Lemma step_sources_stripped dry idx row (st st1 : PassState FS) :
  process_row ext mode delimiter dry idx row st = Completed st1 →
  Forall source_is_stripped (log st) →
  Forall source_is_stripped (log st1).
Proof.
  intros Hstep Hlog. unfold process_row in Hstep.
  destruct (PyStr.truthy (PyStr.strip (row_get row "Current_Filename")))
    eqn:Hkey; simpl in Hstep; last first.
  { injection Hstep as <-. simpl. apply Forall_app. split; [done|].
    by apply Forall_singleton. }
  assert (source_is_stripped (LogNoChange
            (PyStr.strip (row_get row "Current_Filename")))) as Hsrc.
  { split; [apply strip_idempotent|by apply truthy_true]. }
  unfold try_rename, error_row, skip_row in Hstep.
  repeat case_match; simplify_eq/=; apply Forall_app; split; try done;
    apply Forall_singleton; first [exact Hsrc | exact I].
Qed.

Lemma loop_sources_stripped dry rows : ∀ idx (st : PassState FS),
  Forall source_is_stripped (log st) →
  Forall source_is_stripped
    (log (run_state (rename_loop ext mode delimiter dry idx rows st))).
Proof.
  induction rows as [|row rows IH]; intros idx st Hlog; [done|]. simpl.
  destruct (process_row ext mode delimiter dry idx row st) as [st1|st1]
    eqn:Hstep.
  - eapply IH, step_sources_stripped; eauto.
  - by apply step_aborted in Hstep as ->.
Qed.

(** A row is matched through its stripped key, so a name that [strip]
    changes, one that begins or ends with a blank, is the source of no row:
    whatever the spreadsheet holds, no pass logs a file of such a name as
    renamed, nor as unchanged, as colliding or as failed. *)
Theorem blank_edged_name_is_never_a_source dry rows (fs : FS) files k e :
  PyStr.strip k ≠ k →
  e ∈ log (run_state (pass ext mode delimiter dry rows fs files)) →
  e ≠ LogNoChange k
  ∧ (∀ n, e ≠ LogTargetExists k n)
  ∧ (∀ n notes, e ≠ LogRenamed k n notes)
  ∧ (∀ message, e ≠ LogRenameError k message).
Proof.
  intros Hk He. rewrite pass_unfold in He.
  pose proof (loop_sources_stripped dry rows 0 (initial_state fs files)
                (Forall_nil_2 _)) as Hall.
  rewrite Forall_forall in Hall. specialize (Hall e He).
  repeat split; intros; intros ->; by destruct Hall.
Qed.

End StrippedKeys.

(** The row written for the file [" a.pdf"] renames ["a.pdf"]. *)
Lemma blank_edged_name_is_never_a_source_witness :
  let d := folder_of "/d" ["a.pdf"; " a.pdf"] in
  let files := listing_of "/d" ["a.pdf"; " a.pdf"] in
  let e := LogRenamed "a.pdf" "x.pdf" "" in
  log (demo_pass false [mk_row " a.pdf" "" "x" ""] d files) = [e]
  ∧ (e ≠ LogNoChange " a.pdf"
     ∧ (∀ n, e ≠ LogTargetExists " a.pdf" n)
     ∧ (∀ n notes, e ≠ LogRenamed " a.pdf" n notes)
     ∧ (∀ message, e ≠ LogRenameError " a.pdf" message)).
Proof.
  split; [by vm_compute|].
  apply (blank_edged_name_is_never_a_source ".pdf" "Replace" (Some "-") false
           [mk_row " a.pdf" "" "x" ""]
           (folder_of "/d" ["a.pdf"; " a.pdf"])
           (listing_of "/d" ["a.pdf"; " a.pdf"])).
  - by vm_compute.
  - vm_compute. by apply list_elem_of_singleton.
Defined.

(** ** A new name that is an absolute path *)

Lemma prefix_slash s : String.prefix "/" s = true ↔ ∃ r, s = String "/" r.
Proof.
  destruct s as [|c s]; [split; [done|by intros [? ?]]|].
  change (String.prefix "/" (String c s))
    with (if ascii_dec "/" c then String.prefix "" s else false).
  destruct (ascii_dec "/" c) as [<-|Hc].
  - split; [by eexists|]. intros _. by destruct s.
  - split; [done|]. intros [r [= ? ?]]. done.
Qed.

Lemma join_absolute a b : String.prefix "/" b = true → OsPath.join a b = b.
Proof. unfold OsPath.join. by intros ->. Qed.

(** Outside Prefix mode, or with an empty prefix, the generated name of a
    row whose [New_Filename] starts with a slash starts with it too. *)
Lemma absolute_new_name ext mode delimiter row :
  mode ≠ "Prefix" ∨ PyStr.strip (row_get row "Prefix") = "" →
  String.prefix "/" (PyStr.strip (row_get row "New_Filename")) = true →
  String.prefix "/" (new_name_of ext mode delimiter row) = true.
Proof.
  intros Hmode [r Hr]%prefix_slash.
  unfold new_name_of. rewrite generate_new_name_finish. simpl.
  assert (result_stem row (key_of row) mode delimiter = String "/" r) as ->.
  { unfold result_stem. rewrite Hr. simpl.
    destruct Hmode as [Hm| ->]; [by rewrite decide_False|].
    by case_decide. }
  destruct (PyStr.endswith _ _); apply prefix_slash;
    [by exists r | by exists (r +:+ ext)].
Qed.

(** Nothing keeps a rename inside the folder of the file.  When the
    [New_Filename] cell starts with a slash (outside Prefix mode, or with an
    empty prefix), the target path is the generated name itself, whatever
    the folder.  A live pass that [os.path.exists] tells this path is free
    calls [os.rename] with it: when the call returns, the row is logged as
    renamed and [files_map] leads from the new name to itself; when it
    raises, as it does when the folder of the target is missing, the row is
    logged as an error and nothing else changes. *)
Theorem absolute_new_name_leaves_folder {FS : Type} `{!OS FS}
    ext mode delimiter idx row (st : PassState FS) old_path :
  let target := new_name_of ext mode delimiter row in
  mode ≠ "Prefix" ∨ PyStr.strip (row_get row "Prefix") = "" →
  String.prefix "/" (PyStr.strip (row_get row "New_Filename")) = true →
  matched (files_map st) row old_path →
  key_of row ≠ target →
  os_path_exists (disk st) target = false →
  new_path_of ext mode delimiter row old_path = target
  ∧ process_row ext mode delimiter false idx row st
    = Completed
        match os_rename (disk st) old_path target with
        | inr fs' =>
            mkPass fs'
              (<[target := target]> (delete (key_of row) (files_map st)))
              (log st ++ [LogRenamed (key_of row) target
                            (PyStr.strip (row_get row "Notes"))])
              (S (renamed_count st)) (error_count st) (skipped_count st)
        | inl message =>
            mkPass (disk st) (files_map st)
              (log st ++ [LogRenameError (key_of row) message])
              (renamed_count st) (S (error_count st)) (skipped_count st)
        end.
Proof.
  intros target Hmode Hslash [Hkey Hfm] Hne Hfree. subst target.
  assert (new_path_of ext mode delimiter row old_path
          = new_name_of ext mode delimiter row) as Hpath.
  { unfold new_path_of. apply join_absolute. by apply absolute_new_name. }
  split; [done|].
  apply truthy_true in Hkey.
  unfold process_row. fold (key_of row). rewrite Hkey. simpl. rewrite Hfm.
  fold (new_name_of ext mode delimiter row).
  rewrite decide_False by done.
  fold (new_path_of ext mode delimiter row old_path). rewrite Hpath.
  unfold target_taken, try_rename, error_row. rewrite Hfree.
  by destruct (os_rename _ _ _).
Qed.

(** ["/e/x"] for the file ["a.pdf"] of ["/d"], on a disk that has both
    folders: the file goes to ["/e/x.pdf"]. *)
Lemma absolute_new_name_leaves_folder_witness :
  let two_folders :=
    mkDisk (list_to_map [("/d/a.pdf", 0%nat); ("/e/b.pdf", 1%nat)]) ∅ in
  let row := mk_row "a.pdf" "" "/e/x" "moved" in
  let st := initial_state two_folders ["/d/a.pdf"] in
  let target := new_name_of ".pdf" "Replace" (Some "-") row in
  (target = "/e/x.pdf"
   ∧ inodes (disk (run_state (process_row ".pdf" "Replace" (Some "-") false
                                0 row st))) !! "/e/x.pdf" = Some 0%nat
   ∧ classes (run_state (process_row ".pdf" "Replace" (Some "-") false
                           0 row st)) = [Renamed])
  ∧ (new_path_of ".pdf" "Replace" (Some "-") row "/d/a.pdf" = target
     ∧ process_row ".pdf" "Replace" (Some "-") false 0 row st
       = Completed
           match os_rename (disk st) "/d/a.pdf" target with
           | inr fs' =>
               mkPass fs'
                 (<[target := target]> (delete (key_of row) (files_map st)))
                 (log st ++ [LogRenamed (key_of row) target
                               (PyStr.strip (row_get row "Notes"))])
                 (S (renamed_count st)) (error_count st) (skipped_count st)
           | inl message =>
               mkPass (disk st) (files_map st)
                 (log st ++ [LogRenameError (key_of row) message])
                 (renamed_count st) (S (error_count st)) (skipped_count st)
           end).
Proof.
  split; [by vm_compute|].
  apply (absolute_new_name_leaves_folder ".pdf" "Replace" (Some "-") 0
           (mk_row "a.pdf" "" "/e/x" "moved")
           (initial_state
              (mkDisk (list_to_map [("/d/a.pdf", 0%nat); ("/e/b.pdf", 1%nat)])
                      ∅)
              ["/d/a.pdf"]) "/d/a.pdf").
  - left. discriminate.
  - by vm_compute.
  - by vm_compute.
  - by vm_compute.
  - by vm_compute.
Defined.

(** ** What the preview counts and proposes *)

Lemma shown_as_snoc c l e :
  shown_as c (l ++ [e])
  = (shown_as c l + if decide (classify_preview e = c) then 1 else 0)%nat.
Proof.
  unfold shown_as. rewrite filter_app, length_app. f_equal.
  rewrite filter_cons, filter_nil. by case_decide.
Qed.

Lemma proposals_snoc l e :
  proposals (l ++ [e]) = proposals l ++ from_option (λ n, [n]) [] (proposal e).
Proof.
  unfold proposals. rewrite omap_app. by f_equal.
Qed.

Section PreviewCounts.
Context {FS : Type} `{!OS FS}.
Variables (ext mode : string) (delimiter : option string).
Variables (fs : FS) (fm : gmap string string).

Lemma preview_row_in_step idx row st :
  preview_in_step st →
  preview_in_step (preview_row ext mode delimiter fs fm idx row st).
Proof.
  intros (Hch & Hco & Hmi & Hnd & Hset). unfold preview_in_step, preview_row.
  destruct (negb (PyStr.truthy _)); simpl.
  { rewrite !shown_as_snoc, proposals_snoc, app_nil_r. simpl.
    repeat split; try done; try lia; by apply Hset. }
  destruct (fm !! _) as [old_path|]; simpl; last first.
  { rewrite !shown_as_snoc, proposals_snoc, app_nil_r. simpl.
    repeat split; try done; try lia; by apply Hset. }
  case_decide; simpl; last first.
  { rewrite !shown_as_snoc, proposals_snoc, app_nil_r. simpl.
    repeat split; try done; try lia; by apply Hset. }
  case_bool_decide as Hin; simpl.
  { rewrite !shown_as_snoc, proposals_snoc, app_nil_r. simpl.
    repeat split; try done; try lia; by apply Hset. }
  destruct (os_path_exists fs _); simpl.
  { rewrite !shown_as_snoc, proposals_snoc, app_nil_r. simpl.
    repeat split; try done; try lia; by apply Hset. }
  rewrite !shown_as_snoc, proposals_snoc. simpl.
  split; [lia|]. split; [lia|]. split; [lia|]. split.
  - apply NoDup_app. split; [done|]. split; [|apply NoDup_singleton].
    intros n Hn ->%list_elem_of_singleton. apply Hin. by apply Hset.
  - intros n. rewrite elem_of_union, elem_of_singleton, elem_of_app,
      list_elem_of_singleton, Hset. tauto.
Qed.

Lemma preview_loop_in_step rows : ∀ idx st,
  preview_in_step st →
  preview_in_step (preview_loop ext mode delimiter fs fm idx rows st).
Proof.
  induction rows as [|row rows IH]; intros idx st Hst; [done|]. simpl.
  by apply IH, preview_row_in_step.
Qed.

End PreviewCounts.

(** The preview shows one entry for each row; the number it announces as
    "file(s) will be renamed" counts the rows shown as a change and the rows
    shown as a collision together; it counts the collisions and the
    unmatched rows as shown; and the rows shown as a change propose pairwise
    different new names, which are the names it has reserved. *)
Theorem preview_counts_and_proposals {FS : Type} `{!OS FS} df files (fs : FS)
    ext mode delimiter :
  let st := preview_changes df files fs ext mode delimiter in
  length (preview_text st) = length df
  ∧ changes_count st
    = (shown_as Renamed (preview_text st)
       + shown_as Collision (preview_text st))%nat
  ∧ collisions st = shown_as Collision (preview_text st)
  ∧ missing_files st
    = (shown_as SkipEmptyKey (preview_text st)
       + shown_as SkipNotFound (preview_text st))%nat
  ∧ NoDup (proposals (preview_text st))
  ∧ ∀ n, n ∈ proposed_new_names st ↔ n ∈ proposals (preview_text st).
Proof.
  intros st. subst st. unfold preview_changes. split.
  - destruct (preview_loop_text ext mode delimiter fs
                (build_files_map files) 0 df preview_start)
      as (out & -> & Hlen & _). done.
  - apply preview_loop_in_step. unfold preview_in_step. simpl.
    repeat split; try done; [apply NoDup_nil_2|].
    all: by intros ?%elem_of_nil || by intros ?%not_elem_of_empty.
Qed.

(** ** The preview has no same-file test *)

(** Where the new path exists and is the file of the row itself, the
    execution pass does not take it for a collision and enters its [try]
    block (a dry run logs the row as renamed), while the preview, which only
    asks whether the path exists, shows the row as a collision. *)
Theorem preview_flags_the_file_itself {FS : Type} `{!OS FS}
    ext mode delimiter dry idx row (st : PassState FS) (shown : PreviewState)
    old_path :
  let new_name := new_name_of ext mode delimiter row in
  let new_path := new_path_of ext mode delimiter row old_path in
  matched (files_map st) row old_path →
  key_of row ≠ new_name →
  os_path_exists (disk st) new_path = true →
  os_path_samefile (disk st) old_path new_path = Some true →
  preview_row ext mode delimiter (disk st) (files_map st) idx row shown
  = mkPreview (S (changes_count shown)) (missing_files shown)
      (S (collisions shown)) (proposed_new_names shown)
      (preview_text shown ++ [PvCollision (S idx) (key_of row) new_name])
  ∧ process_row ext mode delimiter dry idx row st
    = Completed (try_rename dry (key_of row) new_name old_path new_path
                   (PyStr.strip (row_get row "Notes")) st).
Proof.
  intros new_name new_path [Hkey Hfm] Hne Hex Hsame.
  apply truthy_true in Hkey. subst new_name new_path. split.
  - unfold preview_row. fold (key_of row). rewrite Hkey. simpl. rewrite Hfm.
    fold (new_name_of ext mode delimiter row).
    rewrite decide_True by done.
    fold (new_path_of ext mode delimiter row old_path).
    by rewrite Hex, orb_true_r.
  - unfold process_row, target_taken. fold (key_of row).
    rewrite Hkey. simpl. rewrite Hfm.
    fold (new_name_of ext mode delimiter row).
    rewrite decide_False by done.
    fold (new_path_of ext mode delimiter row old_path).
    by rewrite Hex, Hsame.
Qed.

(** ["/d/a"] for ["/d/a.pdf"]: the new name differs from ["a.pdf"], the new
    path is the file. *)
Lemma preview_flags_the_file_itself_witness :
  let row := mk_row "a.pdf" "" "/d/a" "" in
  preview_classes
    (preview_changes [row] demo_files demo_disk ".pdf" "Replace" (Some "-"))
  = [Collision]
  ∧ classes (demo_pass true [row] demo_disk demo_files) = [Renamed]
  ∧ process_row ".pdf" "Replace" (Some "-") false 0 row
      (initial_state demo_disk demo_files)
    = Completed (try_rename false (key_of row)
                   (new_name_of ".pdf" "Replace" (Some "-") row) "/d/a.pdf"
                   (new_path_of ".pdf" "Replace" (Some "-") row "/d/a.pdf")
                   (PyStr.strip (row_get row "Notes"))
                   (initial_state demo_disk demo_files)).
Proof.
  split; [by vm_compute|]. split; [by vm_compute|].
  apply (preview_flags_the_file_itself ".pdf" "Replace" (Some "-") false 0
           (mk_row "a.pdf" "" "/d/a" "")
           (initial_state demo_disk demo_files) preview_start "/d/a.pdf");
    by vm_compute.
Defined.

(** ** The template, run as it was written *)

Lemma build_files_map_listed files f :
  f ∈ files → is_Some (build_files_map files !! OsPath.basename f).
Proof.
  induction files as [|x files IH] using rev_ind; [by intros ?%elem_of_nil|].
  rewrite build_files_map_snoc, lookup_insert. case_decide; [by eauto|].
  intros [Hf|Hf]%elem_of_app; [by apply IH|].
  apply list_elem_of_singleton in Hf as ->. done.
Qed.

Lemma template_row_key idx f :
  row_get (template_row idx f) "Current_Filename" = OsPath.basename f.
Proof. by vm_compute. Qed.

Lemma template_row_new idx f :
  row_get (template_row idx f) "New_Filename"
  = (OsPath.splitext (OsPath.basename f)).1.
Proof. by vm_compute. Qed.

Lemma template_row_notes idx f : row_get (template_row idx f) "Notes" = "".
Proof. by vm_compute. Qed.

Section Template.
Context {FS : Type} `{!OS FS}.
Variables (ext mode : string) (delimiter : option string).
Hypothesis not_prefix : mode ≠ "Prefix".

Lemma template_row_new_name idx f :
  plainly_named ext (OsPath.basename f) →
  key_of (template_row idx f) = OsPath.basename f
  ∧ new_name_of ext mode delimiter (template_row idx f) = OsPath.basename f.
Proof.
  intros (Hne & Hname & Hstem & Hfinish).
  assert (key_of (template_row idx f) = OsPath.basename f) as Hkey.
  { unfold key_of. by rewrite template_row_key. }
  split; [done|].
  unfold new_name_of. rewrite Hkey, generate_new_name_finish. simpl.
  assert (result_stem (template_row idx f) (OsPath.basename f) mode delimiter
          = (OsPath.splitext (OsPath.basename f)).1) as ->; [|done].
  unfold result_stem. rewrite decide_False by done.
  rewrite template_row_new, Hstem. by destruct (PyStr.truthy _).
Qed.

Lemma template_loop dry files rest : ∀ idx number (st : PassState FS),
  files_map st = build_files_map files →
  Forall (λ f, f ∈ files ∧ plainly_named ext (OsPath.basename f)) rest →
  rename_loop ext mode delimiter dry idx (template_rows_from number rest) st
  = Completed (mkPass (disk st) (files_map st)
      (log st ++ (LogNoChange ∘ OsPath.basename <$> rest))
      (renamed_count st) (error_count st)
      (skipped_count st + length rest)).
Proof.
  induction rest as [|f rest IH]; intros idx number st Hfm Hall; simpl.
  { rewrite app_nil_r, Nat.add_0_r. by destruct st. }
  apply Forall_cons in Hall as [[Hin Hplain] Hall].
  destruct (template_row_new_name number f Hplain) as [Hkey Hnew].
  destruct (build_files_map_listed files f Hin) as [old_path Hold].
  assert (process_row ext mode delimiter dry idx (template_row number f) st
          = Completed (skip_row (LogNoChange (OsPath.basename f)) st))
    as ->.
  { unfold process_row. fold (key_of (template_row number f)).
    fold (new_name_of ext mode delimiter (template_row number f)).
    rewrite Hnew, Hkey. destruct Hplain as (Hne & _).
    apply truthy_true in Hne. rewrite Hne. simpl. rewrite Hfm, Hold.
    by rewrite decide_True. }
  rewrite IH by done. simpl. rewrite <- app_assoc. simpl.
  do 2 f_equal. lia.
Qed.

(** Outside Prefix mode, a pass over the template that the scan wrote for
    the listing, not edited, renames nothing when the listed names are
    plain: every row is logged as "no change" under its file name and
    counted as skipped, no row is an error, and the disk and [files_map]
    are as they were. *)
Theorem unedited_template_changes_nothing dry (fs : FS) files :
  Forall (λ f, plainly_named ext (OsPath.basename f)) files →
  pass ext mode delimiter dry (template_rows files) fs files
  = Completed (mkPass fs (build_files_map files)
      (LogNoChange ∘ OsPath.basename <$> files) 0 0 (length files)).
Proof.
  intros Hall. rewrite pass_unfold. unfold template_rows.
  rewrite (template_loop dry files files 0 1 (initial_state fs files));
    [done|done|].
  rewrite Forall_forall in Hall. apply Forall_forall. auto.
Qed.

End Template.

(** A folder with ["a.pdf"] and ["b.pdf"], scanned and run in Replace
    mode. *)
Lemma unedited_template_changes_nothing_witness :
  pass ".pdf" "Replace" (Some "-") false (template_rows demo_files) demo_disk
    demo_files
  = Completed (mkPass demo_disk (build_files_map demo_files)
      (LogNoChange ∘ OsPath.basename <$> demo_files) 0 0
      (length demo_files)).
Proof.
  apply (unedited_template_changes_nothing ".pdf" "Replace" (Some "-")).
  - discriminate.
  - repeat (apply Forall_cons; split; [by vm_compute|]). apply Forall_nil_2.
Defined.

(** ** [get_files] *)

Lemma string_app_cons c (s t : string) : String c s +:+ t = String c (s +:+ t).
Proof. done. Qed.

Lemma string_length_app (s t : string) :
  String.length (s +:+ t) = (String.length s + String.length t)%nat.
Proof.
  induction s as [|c s IH]; [done|].
  rewrite string_app_cons. simpl. by rewrite IH.
Qed.

Lemma rfind_from_app c s1 s2 i acc :
  PyStr.rfind_from c (s1 +:+ s2) i acc
  = PyStr.rfind_from c s2 (i + Z.of_nat (String.length s1))
      (PyStr.rfind_from c s1 i acc).
Proof.
  revert i acc. induction s1 as [|a s1 IH]; intros i acc.
  - simpl. by rewrite Z.add_0_r.
  - rewrite string_app_cons. simpl PyStr.rfind_from. rewrite IH.
    f_equal. simpl String.length. lia.
Qed.

Lemma rfind_from_absent c s i acc :
  c ∉ String.list_ascii_of_string s → PyStr.rfind_from c s i acc = acc.
Proof.
  revert i acc. induction s as [|a s IH]; intros i acc Hc; [done|].
  simpl in *. apply not_elem_of_cons in Hc as [Hca Hc].
  rewrite IH by done. destruct (Ascii.eqb_spec a c); congruence.
Qed.

Lemma substring_all s : String.substring 0 (String.length s) s = s.
Proof. induction s as [|a s IH]; simpl; [done|by rewrite IH]. Qed.

Lemma slice_from_app a f :
  PyStr.slice_from (a +:+ f) (Z.of_nat (String.length a)) = f.
Proof.
  unfold PyStr.slice_from. rewrite Nat2Z.id.
  induction a as [|c a IH].
  - simpl. rewrite Nat.sub_0_r. apply substring_all.
  - rewrite string_app_cons. simpl. exact IH.
Qed.

(** The base name of a path that ends in a name without a separator, after
    nothing or after a separator. *)
Lemma basename_after_sep a f :
  a = "" ∨ (∃ b, a = b +:+ "/") →
  "/"%char ∉ String.list_ascii_of_string f →
  OsPath.basename (a +:+ f) = f.
Proof.
  intros Ha Hf. unfold OsPath.basename, PyStr.rfind.
  rewrite rfind_from_app, (rfind_from_absent _ f) by done.
  destruct Ha as [->|[b ->]].
  - simpl. apply (slice_from_app "").
  - rewrite rfind_from_app. simpl PyStr.rfind_from.
    replace (0 + Z.of_nat (String.length b) + 1)
      with (Z.of_nat (String.length (b +:+ "/"))); [apply slice_from_app|].
    rewrite string_length_app. simpl. lia.
Qed.

Lemma basename_join folder f :
  "/"%char ∉ String.list_ascii_of_string f →
  OsPath.basename (OsPath.join folder f) = f.
Proof.
  intros Hf. unfold OsPath.join.
  assert (String.prefix "/" f = false) as ->.
  { apply not_true_is_false. intros [r ->]%prefix_slash.
    apply Hf. simpl. by left. }
  destruct (negb (PyStr.truthy folder) || PyStr.endswith folder "/") eqn:Hj.
  - apply basename_after_sep; [|done].
    apply orb_true_iff in Hj as [Hj|Hj].
    + left. by destruct folder.
    + right. by apply endswith_true.
  - rewrite <- string_app_assoc. apply basename_after_sep; [|done].
    right. by eexists.
Qed.

Section ListingFacts.
Context {FS : Type} `{!Lister FS}.

(** What [get_files] returns is in ascending order of code points, and the
    sort neither adds nor drops a path. *)
Lemma get_files_sorted (fs : FS) folder ext recursive :
  StronglySorted String.le (get_files fs folder ext recursive).
Proof.
  unfold get_files. destruct recursive.
  - apply StronglySorted_merge_sort; apply _.
  - destruct (os_listdir fs folder); [|constructor].
    apply StronglySorted_merge_sort; apply _.
Qed.

(** A flat listing holds exactly the paths [folder/f] of the names [f] of
    the folder that end with the extension and are files; it is empty when
    the folder cannot be read. *)
Lemma get_files_flat (fs : FS) folder ext p :
  p ∈ get_files fs folder ext false
  ↔ ∃ names f,
      os_listdir fs folder = Some names
      ∧ f ∈ names
      ∧ PyStr.endswith f ext = true
      ∧ os_path_isfile fs (OsPath.join folder f) = true
      ∧ p = OsPath.join folder f.
Proof.
  unfold get_files. destruct (os_listdir fs folder) as [names|].
  - rewrite merge_sort_Permutation, list_elem_of_fmap. split.
    + intros (f & -> & [Hok Hf]%list_elem_of_filter).
      apply andb_true_iff in Hok as [? ?]. by exists names, f.
    + intros (names' & f & [= <-] & Hf & He & Hi & ->).
      exists f. split; [done|]. apply list_elem_of_filter.
      split; [|done]. by rewrite He, Hi.
  - split; [by intros ?%elem_of_nil|]. by intros (? & ? & [=] & _).
Qed.

(** With a flat listing of a folder that can be read, [files_map] leads
    from a name to its path in the folder exactly for the names of the
    folder that end with the extension and are files: the pass can match
    these files and no others, each under its own name.  The listing is in
    ascending order. *)
Theorem flat_listing_matches_the_folder (fs : FS) folder ext names k p :
  os_listdir fs folder = Some names →
  (∀ f, f ∈ names → "/"%char ∉ String.list_ascii_of_string f) →
  StronglySorted String.le (get_files fs folder ext false)
  ∧ (build_files_map (get_files fs folder ext false) !! k = Some p
     ↔ k ∈ names
       ∧ PyStr.endswith k ext = true
       ∧ os_path_isfile fs (OsPath.join folder k) = true
       ∧ p = OsPath.join folder k).
Proof.
  intros Hdir Hnames. split; [apply get_files_sorted|]. split.
  - intros [-> Hp]%build_files_map_lookup.
    apply get_files_flat in Hp as (names' & f & Hdir' & Hf & He & Hi & ->).
    rewrite Hdir in Hdir'. injection Hdir' as <-.
    rewrite basename_join by by apply Hnames. done.
  - intros (Hk & He & Hi & ->).
    assert (OsPath.join folder k ∈ get_files fs folder ext false) as Hin.
    { apply get_files_flat. by exists names, k. }
    destruct (build_files_map_listed _ _ Hin) as [p' Hp'].
    rewrite basename_join in Hp' by by apply Hnames.
    rewrite Hp'. f_equal.
    apply build_files_map_lookup in Hp' as [Hbase Hp'].
    apply get_files_flat in Hp' as (names' & f & Hdir' & Hf & _ & _ & ->).
    rewrite Hdir in Hdir'. injection Hdir' as <-.
    rewrite basename_join in Hbase by by apply Hnames. by subst.
Qed.

(** A folder that cannot be read gives an empty listing, flat, and an empty
    [files_map]: every row with a key is then logged as not found. *)
Lemma unreadable_folder_lists_nothing (fs : FS) folder ext :
  os_listdir fs folder = None → get_files fs folder ext false = [].
Proof. unfold get_files. by intros ->. Qed.

End ListingFacts.

(** The flat listing of ["/d"]: the two [".pdf"] files, in order, each
    matched under its name. *)
Lemma flat_listing_matches_the_folder_witness :
  get_files demo_shelf "/d" ".pdf" false = ["/d/a.pdf"; "/d/b.pdf"]
  ∧ (StronglySorted String.le (get_files demo_shelf "/d" ".pdf" false)
     ∧ (build_files_map (get_files demo_shelf "/d" ".pdf" false) !! "a.pdf"
        = Some "/d/a.pdf"
        ↔ "a.pdf" ∈ ["b.pdf"; "a.pdf"; "notes.txt"]
          ∧ PyStr.endswith "a.pdf" ".pdf" = true
          ∧ os_path_isfile demo_shelf (OsPath.join "/d" "a.pdf") = true
          ∧ "/d/a.pdf" = OsPath.join "/d" "a.pdf")).
Proof.
  split; [by vm_compute|].
  apply (flat_listing_matches_the_folder demo_shelf "/d" ".pdf"
           ["b.pdf"; "a.pdf"; "notes.txt"] "a.pdf" "/d/a.pdf").
  - by vm_compute.
  - intros f Hf.
    repeat (apply elem_of_cons in Hf as [->|Hf];
            [vm_compute; intros Hin;
             repeat (apply elem_of_cons in Hin as [Hin|Hin];
                     [discriminate|]);
             by apply elem_of_nil in Hin|]).
    by apply elem_of_nil in Hf.
Defined.

(** Of the listed paths that share a base name, [files_map] keeps the one
    that comes last in the order of the listing: with a recursive listing,
    of two files of one name in two folders only the one whose path is the
    greater can be matched by a row. *)
Theorem files_map_keeps_greatest_path {FS : Type} `{!Lister FS} (fs : FS)
    folder ext recursive k p q :
  build_files_map (get_files fs folder ext recursive) !! k = Some p →
  q ∈ get_files fs folder ext recursive →
  OsPath.basename q = k →
  String.le q p.
Proof.
  intros (before & after & Hfiles & Hk & Hafter)%files_map_holds_last_listed
         Hq Hbase.
  pose proof (get_files_sorted fs folder ext recursive) as Hsorted.
  rewrite Hfiles in Hq, Hsorted.
  apply elem_of_app in Hq as [Hq|Hq].
  - eapply StronglySorted_app_1_elem_of; [exact Hsorted|done|by left].
  - apply elem_of_cons in Hq as [->|Hq]; [done|]. by destruct (Hafter q).
Qed.

(** ["/d/a.pdf"] and ["/d/old/a.pdf"]: the key ["a.pdf"] leads to the
    second. *)
Lemma files_map_keeps_greatest_path_witness :
  build_files_map (get_files demo_shelf "/d" ".pdf" true) !! "a.pdf"
  = Some "/d/old/a.pdf"
  ∧ String.le "/d/a.pdf" "/d/old/a.pdf".
Proof.
  assert (build_files_map (get_files demo_shelf "/d" ".pdf" true) !! "a.pdf"
          = Some "/d/old/a.pdf") as Hlast by by vm_compute.
  split; [exact Hlast|].
  apply (files_map_keeps_greatest_path demo_shelf "/d" ".pdf" true "a.pdf"
           "/d/old/a.pdf" "/d/a.pdf" Hlast).
  - vm_compute. by left.
  - by vm_compute.
Defined.

(** ** [find_latest_template] *)

Lemma insert_by_mtime_perm x l : insert_by_mtime x l ≡ₚ x :: l.
Proof.
  induction l as [|y l IH]; simpl; [done|].
  destruct (x.2 <=? y.2); [|done]. rewrite IH. apply Permutation_swap.
Qed.

Lemma newest_first_perm l : newest_first l ≡ₚ l.
Proof.
  unfold newest_first.
  assert (∀ acc, foldl (λ acc x, insert_by_mtime x acc) acc l ≡ₚ acc ++ l)
    as Hgen; [|by apply (Hgen [])].
  induction l as [|x l IH]; intros acc; simpl; [by rewrite app_nil_r|].
  rewrite IH, insert_by_mtime_perm. simpl. apply Permutation_middle.
Qed.

Lemma insert_by_mtime_sorted x l :
  StronglySorted (λ a b : string * Z, b.2 ≤ a.2) l →
  StronglySorted (λ a b : string * Z, b.2 ≤ a.2) (insert_by_mtime x l).
Proof.
  induction 1 as [|y l Hl IH Hy]; simpl; [by repeat constructor|].
  destruct (Z.leb_spec x.2 y.2).
  - constructor; [done|]. rewrite insert_by_mtime_perm. by constructor.
  - constructor; [by constructor|]. constructor; [lia|].
    eapply Forall_impl; [exact Hy|]. simpl. lia.
Qed.

Lemma newest_first_sorted l :
  StronglySorted (λ a b : string * Z, b.2 ≤ a.2) (newest_first l).
Proof.
  unfold newest_first.
  assert (∀ acc, StronglySorted (λ a b : string * Z, b.2 ≤ a.2) acc →
    StronglySorted (λ a b : string * Z, b.2 ≤ a.2)
      (foldl (λ acc x, insert_by_mtime x acc) acc l)) as Hgen.
  { induction l as [|x l IH]; intros acc Hacc; simpl; [done|].
    by apply IH, insert_by_mtime_sorted. }
  apply Hgen. constructor.
Qed.

Section LatestFacts.
Context {FS : Type} `{!Lister FS}.

Lemma first_with_sheet_Some (fs : FS) l c :
  first_with_sheet fs l = Some c →
  ∃ l1 l2, l = l1 ++ c :: l2
    ∧ has_rename_index fs c = Some true
    ∧ ∀ x, x ∈ l1 → has_rename_index fs x ≠ Some true.
Proof.
  induction l as [|y l IH]; simpl; [done|].
  destruct (has_rename_index fs y) as [[]|] eqn:Hy.
  - intros [= <-]. exists [], l. split; [done|]. split; [done|].
    by intros x ?%elem_of_nil.
  - intros (l1 & l2 & -> & Hc & Hl1)%IH. exists (y :: l1), l2.
    split; [done|]. split; [done|].
    intros x [->|Hx]%elem_of_cons; [congruence|by apply Hl1].
  - intros (l1 & l2 & -> & Hc & Hl1)%IH. exists (y :: l1), l2.
    split; [done|]. split; [done|].
    intros x [->|Hx]%elem_of_cons; [congruence|by apply Hl1].
Qed.

Lemma first_with_sheet_None (fs : FS) l :
  first_with_sheet fs l = None
  ↔ ∀ x, x ∈ l → has_rename_index fs x ≠ Some true.
Proof.
  induction l as [|y l IH]; simpl.
  { split; [by intros _ x ?%elem_of_nil|done]. }
  destruct (has_rename_index fs y) as [[]|] eqn:Hy.
  - split; [done|]. intros Hall. destruct (Hall y); [by left|done].
  - rewrite IH. split.
    + intros Hall x [->|Hx]%elem_of_cons; [congruence|by apply Hall].
    + intros Hall x Hx. apply Hall. by right.
  - rewrite IH. split.
    + intros Hall x [->|Hx]%elem_of_cons; [congruence|by apply Hall].
    + intros Hall x Hx. apply Hall. by right.
Qed.

(** The stamps that the sort reads. *)
Lemma stamped_candidates (fs : FS) cs stamped :
  mapM (λ p, pair p <$> os_path_getmtime fs p) cs = Some stamped →
  fst <$> stamped = cs
  ∧ ∀ p t, (p, t) ∈ stamped → os_path_getmtime fs p = Some t.
Proof.
  intros Hm%mapM_Some. induction Hm as [|c [p t] cs stamped Hc Hm [IH1 IH2]].
  { split; [done|]. by intros p t ?%elem_of_nil. }
  destruct (os_path_getmtime fs c) as [tc|] eqn:Htc; simplify_eq/=.
  split; [by f_equal|].
  intros p' t' [[= -> ->]|Hin]%elem_of_cons; [done|by apply IH2].
Qed.

Lemma find_latest_template_unfold (fs : FS) folder :
  find_latest_template fs folder
  = if decide (template_candidates fs folder = []) then None
    else stamped ← mapM (λ p, pair p <$> os_path_getmtime fs p)
                     (template_candidates fs folder);
         first_with_sheet fs (fst <$> newest_first stamped).
Proof.
  unfold find_latest_template.
  destruct (template_candidates fs folder) eqn:Hcs; [done|].
  by case_decide.
Qed.

(** When [find_latest_template] returns a workbook, it is one of the
    candidates (one named [sheet-index-*.xlsx] if the folder has any such),
    it has the sheet ['Rename Index'], and no candidate that has the sheet
    is newer. *)
Theorem latest_template_is_newest_with_sheet (fs : FS) folder c :
  find_latest_template fs folder = Some c →
  c ∈ template_candidates fs folder
  ∧ (glob_glob fs (OsPath.join folder "sheet-index-*.xlsx") ≠ [] →
     c ∈ glob_glob fs (OsPath.join folder "sheet-index-*.xlsx"))
  ∧ has_rename_index fs c = Some true
  ∧ ∀ c' t t',
      c' ∈ template_candidates fs folder →
      has_rename_index fs c' = Some true →
      os_path_getmtime fs c = Some t →
      os_path_getmtime fs c' = Some t' →
      t' ≤ t.
Proof.
  unfold find_latest_template. intros Hfind.
  set (cs := template_candidates fs folder) in *.
  assert (∃ stamped,
    mapM (λ p, pair p <$> os_path_getmtime fs p) cs = Some stamped
    ∧ first_with_sheet fs (fst <$> newest_first stamped) = Some c)
    as (stamped & Hm & Hfirst).
  { destruct cs; [done|].
    destruct (mapM _ _) as [stamped|]; [|done]. by exists stamped. }
  clear Hfind.
  destruct (stamped_candidates fs cs stamped Hm) as [Hfst Hstamps].
  apply first_with_sheet_Some in Hfirst as (l1 & l2 & Hsplit & Hc & Hl1).
  apply fmap_app_inv in Hsplit as (s1 & s2' & -> & Hs2 & Hsorted).
  symmetry in Hs2. apply fmap_cons_inv in Hs2 as ([c0 tc] & s2 & Hc0 & -> & ->).
  simpl in Hc0. subst c0.
  assert (∀ x, x ∈ stamped ↔ x ∈ s1 ++ (c, tc) :: s2) as Hperm.
  { intros x. by rewrite <- Hsorted, newest_first_perm. }
  assert (c ∈ cs) as Hin.
  { rewrite <- Hfst. apply list_elem_of_fmap. exists (c, tc).
    split; [done|]. apply Hperm, elem_of_app. right. by left. }
  split; [done|]. split.
  { intros Hnamed. subst cs. unfold template_candidates in Hin.
    by destruct (glob_glob fs (OsPath.join folder "sheet-index-*.xlsx")). }
  split; [done|].
  intros c' t t' Hc' Hsheet Ht Ht'.
  assert (os_path_getmtime fs c = Some tc) as Htc.
  { apply Hstamps, Hperm, elem_of_app. right. by left. }
  assert (tc = t) as -> by congruence.
  rewrite <- Hfst in Hc'.
  apply list_elem_of_fmap in Hc' as ([c'' t''] & -> & Hpair). simpl in *.
  assert (t'' = t') as ->.
  { apply Hstamps in Hpair. congruence. }
  apply Hperm, elem_of_app in Hpair as [Hpair|Hpair].
  - exfalso. apply (Hl1 c''); [|done].
    apply list_elem_of_fmap. by exists (c'', t').
  - apply elem_of_cons in Hpair as [[= -> ->]|Hpair]; [done|].
    pose proof (newest_first_sorted stamped) as Hdesc.
    rewrite Hsorted in Hdesc.
    apply StronglySorted_app_1_r, StronglySorted_cons in Hdesc as [Hall _].
    rewrite Forall_forall in Hall. by apply (Hall (c'', t')).
Qed.

(** [find_latest_template] returns nothing exactly when the time stamp of
    some candidate cannot be read, or when no candidate opens and has the
    sheet ['Rename Index'].  The candidates are the workbooks named
    [sheet-index-*.xlsx] whenever there is one: the other workbooks of the
    folder are then never looked at. *)
Theorem no_latest_template (fs : FS) folder :
  find_latest_template fs folder = None
  ↔ (∃ c, c ∈ template_candidates fs folder
          ∧ os_path_getmtime fs c = None)
    ∨ (∀ c, c ∈ template_candidates fs folder →
            has_rename_index fs c ≠ Some true).
Proof.
  rewrite find_latest_template_unfold.
  set (cs := template_candidates fs folder).
  case_decide as Hcs.
  { split; [|done]. intros _. right. rewrite Hcs. by intros c ?%elem_of_nil. }
  destruct (mapM _ cs) as [stamped|] eqn:Hm; simpl.
  - destruct (stamped_candidates fs cs stamped Hm) as [Hfst Hstamps].
    rewrite first_with_sheet_None. split.
    + intros Hnone. right. intros c Hc. apply Hnone.
      rewrite <- Hfst in Hc.
      apply list_elem_of_fmap in Hc as (x & -> & Hx).
      apply list_elem_of_fmap. exists x. split; [done|].
      by rewrite newest_first_perm.
    + intros [(c & Hc & Hnot)|Hall] x Hx.
      * exfalso. rewrite <- Hfst in Hc.
        apply list_elem_of_fmap in Hc as ([c0 t0] & -> & Hpair).
        apply Hstamps in Hpair. simpl in Hnot. congruence.
      * apply Hall. rewrite <- Hfst.
        apply list_elem_of_fmap in Hx as (y & -> & Hy).
        apply list_elem_of_fmap. exists y. split; [done|].
        by rewrite <- newest_first_perm.
  - split; [|done]. intros _. left.
    apply mapM_None, Exists_exists in Hm as (c & Hc & Hnone).
    exists c. split; [done|].
    by destruct (os_path_getmtime fs c).
Qed.

End LatestFacts.

(** In ["/w"] the workbook [sheet-index-1.xlsx] is pulled: the newer
    [sheet-index-2.xlsx] has no sheet, and [list.xlsx], newer too and with
    the sheet, is no candidate. *)
Lemma latest_template_is_newest_with_sheet_witness :
  find_latest_template demo_books "/w" = Some "/w/sheet-index-1.xlsx"
  ∧ "/w/sheet-index-1.xlsx" ∈ template_candidates demo_books "/w"
  ∧ has_rename_index demo_books "/w/sheet-index-1.xlsx" = Some true.
Proof.
  assert (find_latest_template demo_books "/w"
          = Some "/w/sheet-index-1.xlsx") as Hfind by by vm_compute.
  split; [exact Hfind|].
  destruct (latest_template_is_newest_with_sheet demo_books "/w"
              "/w/sheet-index-1.xlsx" Hfind) as (Hin & _ & Hsheet & _).
  by split.
Defined.


(** ** The pre-scan and the preview *)

Section Planned.
Context {FS : Type} `{!OS FS}.
Variables (ext mode : string) (delimiter : option string).
Variables (fs : FS) (fm : gmap string string).

Lemma preview_loop_changes rows : ∀ idx st,
  changes_count (preview_loop ext mode delimiter fs fm idx rows st)
  = (changes_count st + planned_renames ext mode delimiter rows fm)%nat.
Proof.
  unfold planned_renames.
  induction rows as [|row rows IH]; intros idx st; simpl; [lia|].
  rewrite IH. unfold preview_row.
  destruct (PyStr.truthy _) eqn:Hkey; simpl.
  - destruct (fm !! _) as [old_path|] eqn:Hfm; simpl.
    + destruct (decide (_ ≠ _)) as [Hnew|Hnew].
      * rewrite filter_cons_True
          by (split; [done|split; [by eexists|done]]).
        destruct (_ || _); simpl; lia.
      * rewrite filter_cons_False by tauto. simpl. lia.
    + rewrite filter_cons_False; [simpl; lia|].
      intros (_ & [? ?] & _). congruence.
  - rewrite filter_cons_False; [simpl; lia|]. intros (? & _). congruence.
Qed.

End Planned.

(** The number of steps that [rename_files_from_excel] plans for its
    progress bar is the number that the preview of the same rows and
    listing announces as "file(s) will be renamed": both count the matched
    rows whose new name differs from the old, collisions included. *)
Theorem planned_steps_are_previewed_changes {FS : Type} `{!OS FS}
    df files (fs : FS) ext mode delimiter :
  planned_renames ext mode delimiter df (build_files_map files)
  = changes_count (preview_changes df files fs ext mode delimiter).
Proof.
  unfold preview_changes. by rewrite preview_loop_changes.
Qed.

(** ** A dry run and the disk *)

(** With the dry-run box ticked, [rename_files_from_excel] changes nothing
    on the disk but the log file it opens: no backup is made, whatever the
    backup box says, and no file is renamed, whether the loop reaches its
    end or an exception leaves it. *)
Theorem dry_run_only_writes_the_log {FS : Type} `{!OS FS}
    backup clock df files (fs : FS) excel_path target_folder ext mode
    delimiter :
  out_disk (rename_files_from_excel (mkConfig backup true) clock df files fs
              excel_path target_folder ext mode delimiter)
  = default fs (open_w fs (log_path_of clock target_folder)).
Proof.
  unfold rename_files_from_excel. simpl. rewrite andb_false_r.
  destruct (open_w fs _) as [fs2|]; [|done]. simpl.
  pose proof (loop_dry_disk ext mode delimiter 0 df
                (initial_state fs2 files)) as Hdisk.
  by destruct (rename_loop _ _ _ _ _ _ _).
Qed.


(** ** A target that exists and is no collision *)



(** ** The stem of a name *)

Lemma rfind_from_le c s i acc m :
  acc ≤ m → i + Z.of_nat (String.length s) ≤ m + 1 →
  PyStr.rfind_from c s i acc ≤ m.
Proof.
  revert i acc. induction s as [|a s IH]; intros i acc Hacc Hi; [done|].
  simpl in *. apply IH; [|lia]. destruct (Ascii.eqb a c); lia.
Qed.

Lemma substring_prefix a b :
  String.substring 0 (String.length a) (a +:+ b) = a.
Proof.
  induction a as [|c a IH].
  - simpl. by destruct b.
  - rewrite string_app_cons. simpl. by rewrite IH.
Qed.

Lemma get_after a c r : String.get (String.length a) (a +:+ String c r) = Some c.
Proof.
  induction a as [|x a IH]; [done|]. rewrite string_app_cons. exact IH.
Qed.

Lemma skip_leading_dots_step p i n :
  OsPath.skip_leading_dots p i (S n)
  = match String.get i p with
    | Some c =>
        if Ascii.eqb c "." then OsPath.skip_leading_dots p (S i) n else true
    | None => true
    end.
Proof.
  simpl. destruct (String.get i p) as [c|]; [|done].
  by destruct c as [[] [] [] [] [] [] [] []].
Qed.

(** The loop over the characters between the last separator and the last
    dot finds a character other than the dot, or none. *)
Lemma skip_leading_dots_app s : ∀ a t,
  OsPath.skip_leading_dots (a +:+ s +:+ t) (String.length a) (String.length s)
  = negb (only_dots s).
Proof.
  induction s as [|c s IH]; intros a t; [done|].
  simpl String.length. rewrite skip_leading_dots_step.
  rewrite string_app_cons, get_after. unfold only_dots. simpl.
  destruct (Ascii.eqb_spec c ".") as [->|Hc]; [|done].
  replace (a +:+ String "." (s +:+ t)) with ((a +:+ ".") +:+ s +:+ t)
    by by rewrite string_app_assoc.
  replace (S (String.length a)) with (String.length (a +:+ "."))
    by (rewrite string_length_app; simpl; lia).
  apply IH.
Qed.

(** The index after the last separator of a path that ends in a name
    without a separator. *)
Lemma rfind_sep_after dir f :
  dir = "" ∨ (∃ b, dir = b +:+ "/") →
  "/"%char ∉ String.list_ascii_of_string f →
  PyStr.rfind "/" (dir +:+ f) + 1 = Z.of_nat (String.length dir).
Proof.
  intros Hdir Hf. unfold PyStr.rfind.
  rewrite rfind_from_app, (rfind_from_absent _ f) by done.
  destruct Hdir as [->|[b ->]]; [done|].
  rewrite rfind_from_app, string_length_app. simpl. lia.
Qed.

(** [os.path.splitext] on a name with a dot after its last separator: the
    name is cut at its last dot, unless only dots come before it. *)
Lemma splitext_at_last_dot dir s e :
  dir = "" ∨ (∃ b, dir = b +:+ "/") →
  "/"%char ∉ String.list_ascii_of_string s →
  "/"%char ∉ String.list_ascii_of_string e →
  "."%char ∉ String.list_ascii_of_string e →
  OsPath.splitext (dir +:+ s +:+ "." +:+ e)
  = if only_dots s then (dir +:+ s +:+ "." +:+ e, "")
    else (dir +:+ s, "." +:+ e).
Proof.
  intros Hdir Hs He Hdot. unfold OsPath.splitext.
  assert ("/"%char ∉ String.list_ascii_of_string (s +:+ "." +:+ e)) as Hbase.
  { rewrite !list_ascii_app. simpl.
    intros [?|[[=]|?]%elem_of_cons]%elem_of_app; done. }
  pose proof (rfind_sep_after dir _ Hdir Hbase) as Hsep.
  assert (PyStr.rfind "." (dir +:+ s +:+ "." +:+ e)
          = Z.of_nat (String.length (dir +:+ s))) as Hlast.
  { unfold PyStr.rfind. rewrite <- string_app_assoc, rfind_from_app.
    change ("." +:+ e) with (String "." e). simpl PyStr.rfind_from.
    by rewrite rfind_from_absent. }
  rewrite Hlast, Hsep, string_length_app.
  replace (PyStr.rfind "/" (dir +:+ s +:+ "." +:+ e)
           <? Z.of_nat (String.length dir + String.length s)) with true
    by (symmetry; apply Z.ltb_lt; lia).
  replace (Z.to_nat (Z.of_nat (String.length dir + String.length s)
                     - Z.of_nat (String.length dir)))
    with (String.length s) by lia.
  rewrite Nat2Z.id, skip_leading_dots_app. simpl.
  destruct (only_dots s); simpl; [done|].
  rewrite <- string_length_app, <- string_app_assoc.
  rewrite slice_from_app. unfold PyStr.slice_to.
  by rewrite Nat2Z.id, substring_prefix.
Qed.

(** [os.path.splitext] on a name without a dot after its last separator. *)
Lemma splitext_without_dot dir s :
  dir = "" ∨ (∃ b, dir = b +:+ "/") →
  "/"%char ∉ String.list_ascii_of_string s →
  "."%char ∉ String.list_ascii_of_string s →
  OsPath.splitext (dir +:+ s) = (dir +:+ s, "").
Proof.
  intros Hdir Hs Hdot. unfold OsPath.splitext.
  pose proof (rfind_sep_after dir s Hdir Hs) as Hsep.
  assert (PyStr.rfind "." (dir +:+ s) ≤ PyStr.rfind "/" (dir +:+ s)) as Hle.
  { unfold PyStr.rfind at 1.
    rewrite rfind_from_app, (rfind_from_absent _ s) by done.
    destruct Hdir as [->|[b ->]]; [simpl in *; lia|].
    rewrite rfind_from_app. simpl PyStr.rfind_from.
    rewrite string_length_app in Hsep. simpl in Hsep.
    apply rfind_from_le; lia. }
  by replace (PyStr.rfind "/" (dir +:+ s) <? PyStr.rfind "." (dir +:+ s))
    with false by (symmetry; apply Z.ltb_ge; lia).
Qed.



